(** * pubmed-paper-fetcher: a shallow embedding and its properties

    The development follows [src/pubmed_paper_fetcher/pubmed.py] and
    [src/cli/main.py].  Python values are modelled as the code uses them:

    - [str] as [string]; the characters are the code points below 256, and
      [isspace] is Python's [str.isspace] on that range;
    - [None] as [None] of an option;
    - an [xml.etree.ElementTree.Element] as a tree of tag, text and children;
    - the set of company affiliations as a [gset string];
    - an exception as a value of [result], threaded by a small monad;
    - a file as its text, the files of the process as a map from paths. *)

From Stdlib Require Import Ascii String ZArith.
From stdpp Require Import base option list strings gmap sets pretty.

Set Warnings "-register-all".
Local Open Scope string_scope.
Local Open Scope list_scope.

(** ** Exceptions and results *)

(** The classes of the exceptions the program meets; each of them derives
    from [Exception]. *)
Inductive ExcClass :=
| TypeError | AttributeError | HTTPError | ConnectionError
| JSONDecodeError | ParseError | IsADirectoryError | FileNotFoundError | OSError.

(** An exception object: its class and [str(e)]. *)
Record Exception := Exc { exc_class : ExcClass; exc_str : string }.

Inductive result (A : Type) :=
| Ok (a : A)
| Raise (e : Exception).
Arguments Ok {A} a.
Arguments Raise {A} e.

Definition rbind {A B} (r : result A) (k : A -> result B) : result B :=
  match r with
  | Ok a => k a
  | Raise e => Raise e
  end.

Notation "'let*' x ':=' r 'in' k" := (rbind r (fun x => k))
  (at level 10, x name, r at level 100, k at level 200).

(** ** Strings *)

Module PyStr.

(** [s.startswith(p)] *)
Fixpoint startswith (p s : string) : bool :=
  match p, s with
  | EmptyString, _ => true
  | String _ _, EmptyString => false
  | String a p', String b s' => if Ascii.eqb a b then startswith p' s' else false
  end.

(** [sub in s] for two strings: [sub] occurs in [s] at some offset. *)
Fixpoint contains (sub s : string) : bool :=
  startswith sub s ||
  match s with
  | EmptyString => false
  | String _ s' => contains sub s'
  end.

(** The same, as a proposition. *)
Definition substring_of (sub s : string) : Prop :=
  exists pre suf, s = pre +:+ sub +:+ suf.

(** [str.isspace] for one character below code point 256:
    TAB..CR, FS..US, SPACE, NEL and NBSP. *)
Definition isspace (c : ascii) : bool :=
  let n := nat_of_ascii c in
  (((9 <=? n) && (n <=? 13)) || ((28 <=? n) && (n <=? 32))
   || (n =? 133) || (n =? 160))%nat.

Definition snoc (s : string) (c : ascii) : string := s +:+ String c EmptyString.

(** [s.split()]: the maximal runs of characters that are not whitespace.
    [cur] is the run being read. *)
Fixpoint split_from (cur : string) (s : string) : list string :=
  match s with
  | EmptyString => if decide (cur = "") then [] else [cur]
  | String c s' =>
      if isspace c
      then (if decide (cur = "") then split_from "" s' else cur :: split_from "" s')
      else split_from (snoc cur c) s'
  end.

Definition split (s : string) : list string := split_from "" s.

(** [sep.join(l)] *)
Fixpoint join (sep : string) (l : list string) : string :=
  match l with
  | [] => ""
  | [x] => x
  | x :: l' => x +:+ sep +:+ join sep l'
  end.

(** [str(x)] inside an f-string, for [x] a string or [None]. *)
Definition fmt (x : option string) : string := default "None" x.

End PyStr.

(** ** The element tree *)

(** An [Element]: its tag, its [text] ([None] when the element has no
    character data before its first child) and its children.  Attributes and
    [tail] are never read by the program. *)
Inductive Element := Elem {
  tag : string;
  text : option string;
  children : list Element }.

Module ET.

(** [elem.iter()]: the element and its descendants in document order. *)
Fixpoint iter (e : Element) : list Element :=
  e :: (fix over (cs : list Element) : list Element :=
          match cs with
          | [] => []
          | c :: cs' => iter c ++ over cs'
          end) (children e).

(** The proper descendants: [e for e in elem.iter() if e is not elem]. *)
Definition descendants (e : Element) : list Element :=
  concat (map iter (children e)).

Definition has_tag (t : string) (e : Element) : bool :=
  if decide (tag e = t) then true else false.

(** [elem.findall(".//t")] *)
Definition findall_desc (t : string) (e : Element) : list Element :=
  List.filter (has_tag t) (descendants e).

(** [elem.find(".//t")] *)
Definition find_desc (t : string) (e : Element) : option Element :=
  head (findall_desc t e).

(** [elem.find("t")]: the first child with that tag. *)
Definition find (t : string) (e : Element) : option Element :=
  head (List.filter (has_tag t) (children e)).

(** [bool(elem)]: an element is true when it has at least one child. *)
Definition truthy (e : Element) : bool :=
  match children e with
  | [] => false
  | _ :: _ => true
  end.

End ET.

(** ** The record parser (class [PubMedFetcher]) *)

(** A Python value that is a string or [None]. *)
Abbreviation pystr := (option string).

(** [x.text if x is not None else "N/A"], for [x] the result of a [find]. *)
Definition text_or_na (x : option Element) : pystr :=
  match x with
  | Some e => text e
  | None => Some "N/A"
  end.

(** Truth value of a string or [None]: false for [None] and for [""]. *)
Definition str_truthy (x : pystr) : bool :=
  match x with
  | Some s => if decide (s = "") then false else true
  | None => false
  end.

(** [keyword in affiliation]; a [TypeError] when [affiliation] is [None]. *)
Definition keyword_in (keyword : string) (affiliation : pystr) : result bool :=
  match affiliation with
  | Some s => Ok (PyStr.contains keyword s)
  | None => Raise (Exc TypeError "argument of type 'NoneType' is not iterable")
  end.

(** [any(keyword in affiliation for keyword in keywords)]: the generator is
    consumed from the left and [any] stops at the first true test. *)
Fixpoint any_keyword_in (keywords : list string) (affiliation : pystr) : result bool :=
  match keywords with
  | [] => Ok false
  | keyword :: rest =>
      let* b := keyword_in keyword affiliation in
      if b then Ok true else any_keyword_in rest affiliation
  end.

Definition academic_keywords : list string :=
  ["University"; "Institute"; "College"; "Research"; "Academy"].

Definition company_keywords : list string :=
  ["Pharma"; "Biotech"; "Pharmaceutical"; "Biotechnology"].

Definition is_academic (affiliation : pystr) : result bool :=
  any_keyword_in academic_keywords affiliation.

Definition is_company (affiliation : pystr) : result bool :=
  any_keyword_in company_keywords affiliation.

(** The variables the author loop updates (lines 126-128).  The list
    [authors] of line 125 is never written nor read again. *)
Record LoopState := {
  non_academic_authors : list string;
  company_affiliations : gset string;
  corresponding_author_email : pystr }.

Definition loop_init : LoopState :=
  {| non_academic_authors := [];
     company_affiliations := ∅;
     corresponding_author_email := None |}.

(** Lines 141-145. *)
Definition affiliation_of (author : Element) : pystr :=
  text_or_na (ET.find_desc "Affiliation" author).

(** Lines 146-151: the first word of the affiliation that has an ["@"]. *)
Definition email_of (affiliation : pystr) : pystr :=
  if str_truthy affiliation
  then match affiliation with
       | Some s => head (List.filter (PyStr.contains "@") (PyStr.split s))
       | None => None
       end
  else None.

(** Line 154. *)
Definition author_name_of (author : Element) : string :=
  let last_name := text_or_na (ET.find "LastName" author) in
  let fore_name := text_or_na (ET.find "ForeName" author) in
  PyStr.fmt fore_name +:+ " " +:+ PyStr.fmt last_name.

(** [company_affiliations.add(affiliation)]; the call is only reached after
    [is_company] returned, hence with a string. *)
Definition set_add (affiliation : pystr) (s : gset string) : gset string :=
  match affiliation with
  | Some a => {[a]} ∪ s
  | None => s
  end.

(** One iteration of the loop of line 130. *)
Definition author_step (st : LoopState) (author : Element) : result LoopState :=
  let affiliation := affiliation_of author in
  let email := email_of affiliation in
  let author_name := author_name_of author in
  let corresponding :=
    if str_truthy email
    then (if negb (str_truthy (corresponding_author_email st))
          then email
          else corresponding_author_email st)
    else corresponding_author_email st in
  let* academic := is_academic affiliation in
  let non_academic :=
    if negb academic
    then non_academic_authors st ++ [author_name]
    else non_academic_authors st in
  let* company := is_company affiliation in
  let companies :=
    if company
    then set_add affiliation (company_affiliations st)
    else company_affiliations st in
  Ok {| non_academic_authors := non_academic;
        company_affiliations := companies;
        corresponding_author_email := corresponding |}.

(** The loop: the first exception leaves it. *)
Fixpoint for_authors (st : LoopState) (authors : list Element) : result LoopState :=
  match authors with
  | [] => Ok st
  | author :: rest =>
      let* st' := author_step st author in
      for_authors st' rest
  end.

(** Lines 103-122.  The test of line 106 is the truth value of the element. *)
Definition publication_date_of (root : Element) : string :=
  match ET.find_desc "DateCompleted" root with
  | Some pub_date_elem =>
      if ET.truthy pub_date_elem
      then
        let year := text_or_na (ET.find "Year" pub_date_elem) in
        let month := text_or_na (ET.find "Month" pub_date_elem) in
        let day := text_or_na (ET.find "Day" pub_date_elem) in
        PyStr.fmt year +:+ "-" +:+ PyStr.fmt month +:+ "-" +:+ PyStr.fmt day
      else "N/A"
  | None => "N/A"
  end.

(** The order in which the interpreter iterates over a set of strings.  It
    depends on the hash seed of the process; all that is known is that the
    members are enumerated once each. *)
Record SetOrder := {
  set_iter : gset string -> list string;
  set_iter_perm : forall s, set_iter s ≡ₚ elements s }.

(** The dict a record is parsed into: its items in insertion order.  A value
    is a string or [None]. *)
Abbreviation ParsedRecord := (list (string * pystr)).

(** [parse_paper_details], from line 91 on: [root] is the tree that
    [ET.fromstring(xml_data)] built at line 89. *)
Definition parse_paper_details (ord : SetOrder) (root : Element) : result ParsedRecord :=
  let pubmed_id := text_or_na (ET.find_desc "PMID" root) in
  let title := text_or_na (ET.find_desc "ArticleTitle" root) in
  let publication_date := publication_date_of root in
  let* st := for_authors loop_init (ET.findall_desc "Author" root) in
  Ok [ ("PubmedID", pubmed_id);
       ("Title", title);
       ("Publication Date", Some publication_date);
       ("Non-academic Author(s)",
         Some (match non_academic_authors st with
               | [] => "None"
               | _ :: _ => PyStr.join "; " (non_academic_authors st)
               end));
       ("Company Affiliation(s)",
         Some (if decide (company_affiliations st = ∅)
               then "None"
               else PyStr.join "; " (set_iter ord (company_affiliations st))));
       ("Corresponding Author Email",
         Some (if str_truthy (corresponding_author_email st)
               then PyStr.fmt (corresponding_author_email st)
               else "None")) ].

(** ** JSON values and HTTP responses *)

(** What [response.json()] returns.  A dict keeps its items in insertion
    order; its keys are distinct.  Of the numbers only the integers are
    kept: the program never looks into a number. *)
Inductive json :=
| JNull
| JBool (b : bool)
| JNum (n : Z)
| JStr (s : string)
| JList (items : list json)
| JDict (items : list (string * json)).

(** [d[key]] for a key that may be absent. *)
Fixpoint assoc {V} (key : string) (items : list (string * V)) : option V :=
  match items with
  | [] => None
  | (k, v) :: rest => if decide (k = key) then Some v else assoc key rest
  end.

(** [x.get(key, dflt)]: a dict method; any other value has no [get]. *)
Definition py_get (x : json) (key : string) (dflt : json) : result json :=
  match x with
  | JDict items => Ok (default dflt (assoc key items))
  | JNull => Raise (Exc AttributeError "'NoneType' object has no attribute 'get'")
  | JBool _ => Raise (Exc AttributeError "'bool' object has no attribute 'get'")
  | JNum _ => Raise (Exc AttributeError "'int' object has no attribute 'get'")
  | JStr _ => Raise (Exc AttributeError "'str' object has no attribute 'get'")
  | JList _ => Raise (Exc AttributeError "'list' object has no attribute 'get'")
  end.

(** [len(x)] *)
Definition py_len (x : json) : result nat :=
  match x with
  | JList items => Ok (length items)
  | JDict items => Ok (length items)
  | JStr s => Ok (String.length s)
  | JNull => Raise (Exc TypeError "object of type 'NoneType' has no len()")
  | JBool _ => Raise (Exc TypeError "object of type 'bool' has no len()")
  | JNum _ => Raise (Exc TypeError "object of type 'int' has no len()")
  end.

Fixpoint chars (s : string) : list string :=
  match s with
  | EmptyString => []
  | String c s' => String c EmptyString :: chars s'
  end.

(** The items [x] yields when iterated, for a value that has a length. *)
Definition py_items (x : json) : list json :=
  match x with
  | JList items => items
  | JDict items => map (fun kv => JStr (fst kv)) items
  | JStr s => map JStr (chars s)
  | _ => []
  end.

(** A [requests.Response]: status line, final URL, and what the two parsers
    the program applies to its text return on it. *)
Record Response := {
  status_code : Z;
  reason : string;
  url : string;
  json_result : result json;        (* response.json() *)
  xml_result : result Element       (* ET.fromstring(response.text) *) }.

(** [response.raise_for_status()] *)
Definition raise_for_status (r : Response) : result unit :=
  let describe kind :=
    pretty (status_code r) +:+ " " +:+ kind +:+ " Error: " +:+ reason r
    +:+ " for url: " +:+ url r in
  if decide (400 <= status_code r < 500)%Z
  then Raise (Exc HTTPError (describe "Client"))
  else if decide (500 <= status_code r < 600)%Z
  then Raise (Exc HTTPError (describe "Server"))
  else Ok tt.

Definition BASE_URL : string := "https://eutils.ncbi.nlm.nih.gov/entrez/eutils".

(** ** The process state *)

Inductive LogLevel := INFO | ERROR.

(** What is at a path.  A regular file is kept as its text.  [Refused] is a
    path the system does not let the process open for appending (a missing
    permission, a full disk), with whether something is there and the
    exception [open] raises. *)
Inductive FsNode :=
| RegularFile (content : string)
| Directory
| Refused (there : bool) (e : Exception).

(** [files] tells what is at each path, a path being the text by which
    the program names a file or a directory; nothing is at a path that is
    not in the map.  The root, the current directory and the directories
    above it are there without being in the map. *)
Record World := {
  files : gmap string FsNode;
  stdout : list string;
  log : list (LogLevel * string) }.

(** How a computation in the parent process ends: it returns, it raises, or
    it waits for ever ([Blocked]). *)
Inductive outcome (A : Type) :=
| Returns (a : A) (w : World)
| Raises (e : Exception) (w : World)
| Blocked.
Arguments Returns {A} a w.
Arguments Raises {A} e w.
Arguments Blocked {A}.

Definition M (A : Type) : Type := World -> outcome A.

Definition ret {A} (a : A) : M A := fun w => Returns a w.

Definition bind {A B} (c : M A) (k : A -> M B) : M B :=
  fun w =>
    match c w with
    | Returns a w' => k a w'
    | Raises e w' => Raises e w'
    | Blocked => Blocked
    end.

Notation "'do' x <- c ; k" := (bind c (fun x => k))
  (at level 10, x name, c at level 100, k at level 200).

(** A pure computation that may raise. *)
Definition lift {A} (r : result A) : M A :=
  fun w =>
    match r with
    | Ok a => Returns a w
    | Raise e => Raises e w
    end.

(** [try: body  except Exception as e: handler(e)] *)
Definition try_except {A} (body : M A) (handler : Exception -> M A) : M A :=
  fun w =>
    match body w with
    | Returns a w' => Returns a w'
    | Raises e w' => handler e w'
    | Blocked => Blocked
    end.

Definition logging (level : LogLevel) (msg : string) : M unit :=
  fun w => Returns tt {| files := files w; stdout := stdout w;
                         log := log w ++ [(level, msg)] |}.

Definition print (line : string) : M unit :=
  fun w => Returns tt {| files := files w; stdout := stdout w ++ [line];
                         log := log w |}.

(** ** The worker pool ([multiprocessing.Pool.map]) *)

Module Pool.
Section Pool.
Context {A B : Type}.

(** The chunk size [map] chooses for [n] items:
    [divmod(n, processes * 4)], rounded up, and [0] for no item. *)
Definition chunksize (processes n : nat) : nat :=
  if (n =? 0)%nat then 0
  else (n / (processes * 4) + (if (n mod (processes * 4) =? 0)%nat then 0 else 1))%nat.

(** Number of tasks: [length // chunksize + bool(length % chunksize)]. *)
Definition number_of_tasks (c n : nat) : nat :=
  (n / c + (if (n mod c =? 0)%nat then 0 else 1))%nat.

(** The items of task [i]. *)
Definition chunk (c i : nat) (xs : list A) : list A :=
  take c (drop (i * c) xs).

(** What a worker does with a task: [list(map(func, chunk))]. *)
Fixpoint mapstar (func : A -> result B) (xs : list A) : result (list B) :=
  match xs with
  | [] => Ok []
  | x :: rest =>
      let* y := func x in
      let* ys := mapstar func rest in
      Ok (y :: ys)
  end.

(** The [MapResult] the parent fills in; [_value] is the list of slots
    while [_success] holds and the exception afterwards. *)
Record MapResult := {
  mr_success : bool;
  mr_value : list (option B);
  mr_error : option Exception;
  mr_number_left : nat }.

Definition new_result (c n : nat) : MapResult :=
  {| mr_success := true;
     mr_value := replicate n None;
     mr_error := None;
     mr_number_left := number_of_tasks c n |}.

(** [value[lo:hi] = new] *)
Definition slice_assign (lo hi : nat) (new : list (option B))
    (value : list (option B)) : list (option B) :=
  take lo value ++ new ++ drop hi value.

(** [MapResult._set(i, (success, result))], called when task [i] is back.
    A worker's exception crosses the process boundary as a pickle; what the
    parent holds is the exception rebuilt from it, [rebuild e], whose text
    need not be that of [e]. *)
Definition set_result (rebuild : Exception -> Exception) (c i : nat)
    (r : result (list B)) (m : MapResult) : MapResult :=
  match r with
  | Ok ys =>
      if mr_success m
      then {| mr_success := true;
              mr_value := slice_assign (i * c) ((i + 1) * c) (map Some ys) (mr_value m);
              mr_error := mr_error m;
              mr_number_left := pred (mr_number_left m) |}
      else {| mr_success := false;
              mr_value := mr_value m;
              mr_error := mr_error m;
              mr_number_left := pred (mr_number_left m) |}
  | Raise e =>
      if mr_success m
      then {| mr_success := false;
              mr_value := mr_value m;
              mr_error := Some (rebuild e);
              mr_number_left := pred (mr_number_left m) |}
      else {| mr_success := false;
              mr_value := mr_value m;
              mr_error := mr_error m;
              mr_number_left := pred (mr_number_left m) |}
  end.

(** The parent receives the tasks' results in the order [sched], which the
    workers' timing decides. *)
Definition collect (rebuild : Exception -> Exception) (c : nat)
    (func : A -> result B) (xs : list A) (sched : list nat) (m : MapResult)
    : MapResult :=
  fold_left (fun m i => set_result rebuild c i (mapstar func (chunk c i xs)) m) sched m.

(** [pool.map(func, xs)] with [processes] workers.  [None] stands for a
    call that never returns; that is the case when [sched] is not an order
    in which every task comes back once. *)
Definition map (processes : nat) (rebuild : Exception -> Exception)
    (sched : list nat) (func : A -> result B) (xs : list A)
    : option (result (list B)) :=
  let n := length xs in
  let c := chunksize processes n in
  if (c =? 0)%nat then Some (Ok [])
  else
    let m := collect rebuild c func xs sched (new_result c n) in
    if (mr_number_left m =? 0)%nat
    then
      if mr_success m
      then Ok <$> mapM id (mr_value m)
      else Raise <$> mr_error m
    else None.

End Pool.
End Pool.

(** What the processes of a pool decide: the order in which the tasks of a
    [map] call come back, for each number of tasks, every task coming back
    once; and the exception the parent rebuilds from the pickle of the one a
    worker raised. *)
Record Scheduler := {
  completion_order : nat -> list nat;
  completion_order_perm : forall k, completion_order k ≡ₚ seq 0 k;
  rebuilt : Exception -> Exception }.

(** ** The search and fetch clients, the coordinator, the writer, [main] *)

(** What the process cannot decide: the answers of the network to
    [requests.get(url, params=params)] (an exception for a transport
    failure), the iteration order of sets, the timing of the workers. *)
Record Env := {
  requests_get : string -> list (string * json) -> result Response;
  set_order : SetOrder;
  scheduler : Scheduler }.

(** [PubMedFetcher.fetch_paper_ids] *)
Definition fetch_paper_ids (env : Env) (search_term : string) (max_results : Z) : M json :=
  do _ <- logging INFO ("Fetching paper IDs for search term: " +:+ search_term
                        +:+ " with max results: " +:+ pretty max_results);
  let url := BASE_URL +:+ "/esearch.fcgi" in
  let params := [ ("db", JStr "pubmed");
                  ("term", JStr search_term);
                  ("retmax", JNum max_results);
                  ("retmode", JStr "json") ] in
  do response <- lift (requests_get env url params);
  do _ <- lift (raise_for_status response);
  do data <- lift (json_result response);
  do inner <- lift (py_get data "esearchresult" (JDict []));
  lift (py_get inner "idlist" (JList [])).

(** [PubMedFetcher.fetch_paper_details].  It runs in a worker process, whose
    log lines are not part of the parent's state; [time.sleep(2)] only takes
    time. *)
Definition fetch_paper_details (env : Env) (pubmed_id : json) : result ParsedRecord :=
  let url := BASE_URL +:+ "/efetch.fcgi" in
  let params := [ ("db", JStr "pubmed");
                  ("id", pubmed_id);
                  ("retmode", JStr "xml") ] in
  let* response := requests_get env url params in
  let* _ := raise_for_status response in
  let* root := xml_result response in
  parse_paper_details (set_order env) root.

(** [fetch_details_concurrently(pubmed_ids, fetcher)].  Of [fetcher] only
    the method [fetch_paper_details] is used; it is the argument [fetch]. *)
Definition fetch_details_concurrently (sch : Scheduler) (pubmed_ids : json)
    (fetch : json -> result ParsedRecord) : M (list ParsedRecord) :=
  do n <- lift (py_len pubmed_ids);
  do _ <- logging INFO ("Using multiprocessing to fetch details for "
                        +:+ pretty n +:+ " PubMed IDs");
  let ids := py_items pubmed_ids in
  let tasks := Pool.number_of_tasks (Pool.chunksize 2 (length ids)) (length ids) in
  match Pool.map 2 (rebuilt sch) (completion_order sch tasks) fetch ids with
  | Some r => lift r
  | None => fun _ => Blocked
  end.

(** [pd.DataFrame(data)] for a list of dicts: the columns are the keys in
    the order in which they first occur, a row holds a record's value for
    each column ([None] when the record has no such key). *)
Record DataFrame := {
  columns : list string;
  rows : list (list pystr) }.

Definition add_columns (cols : list string) (r : ParsedRecord) : list string :=
  fold_left (fun cs k => if decide (k ∈ cs) then cs else cs ++ [k]) (List.map fst r) cols.

Definition make_frame (data : list ParsedRecord) : DataFrame :=
  let cols := fold_left add_columns data [] in
  {| columns := cols;
     rows := List.map (fun r => List.map (fun c => mjoin (assoc c r)) cols) data |}.

(** A cell as [to_csv] writes it: a missing value is the empty text. *)
Definition csv_cell (v : pystr) : string := default "" v.

(** The text the CSV writer makes of a row, with the settings [to_csv]
    gives it: the delimiter [","], the quote character, the line terminator
    of the platform (a line feed), minimal quoting and doubled quotes. *)
Definition newline : string := String (ascii_of_nat 10) EmptyString.

Definition quotechar : ascii := ascii_of_nat 34.

(** The characters that make the writer quote a field: the delimiter, the
    quote character and the characters of the line terminator. *)
Definition special (c : ascii) : bool :=
  Ascii.eqb c ","%char || Ascii.eqb c quotechar || Ascii.eqb c (ascii_of_nat 10).

Fixpoint double_quotes (s : string) : string :=
  match s with
  | EmptyString => EmptyString
  | String c s' =>
      if Ascii.eqb c quotechar
      then String c (String c (double_quotes s'))
      else String c (double_quotes s')
  end.

Definition csv_field (s : string) : string :=
  if existsb special (list_ascii_of_string s)
  then String quotechar (double_quotes s +:+ String quotechar EmptyString)
  else s.

(** [writer.writerow(cells)]; a row of one empty field is written as two
    quote characters, which tells it from a row of no field. *)
Definition csv_line (cells : list string) : string :=
  if decide (cells = [EmptyString])
  then String quotechar (String quotechar newline)
  else PyStr.join "," (List.map csv_field cells) +:+ newline.

(** [writer.writerows(rows)] *)
Fixpoint csv_text (rows : list (list string)) : string :=
  match rows with
  | [] => EmptyString
  | r :: rest => csv_line r +:+ csv_text rest
  end.

(** [pd.io.common.file_exists(filename)], that is [os.path.exists]. *)
Definition file_exists (filename : string) : M bool :=
  fun w => Returns (match files w !! filename with
                    | Some (Refused there _) => there
                    | Some _ => true
                    | None => false
                    end) w.

Fixpoint drop_while (p : ascii -> bool) (l : list ascii) : list ascii :=
  match l with
  | [] => []
  | c :: l' => if p c then drop_while p l' else l
  end.

Definition is_slash (c : ascii) : bool := Ascii.eqb c "/"%char.

(** The components of a path: the texts between its slashes. *)
Fixpoint components_from (cur : string) (path : string) : list string :=
  match path with
  | EmptyString => [cur]
  | String c rest =>
      if is_slash c
      then cur :: components_from "" rest
      else components_from (PyStr.snoc cur c) rest
  end.

(** A component that names no entry of a directory: the directory itself
    or the one above it. *)
Definition dot_component (component : string) : bool :=
  String.eqb component "" || String.eqb component "." || String.eqb component "..".

(** The directory [to_csv] looks for before it opens [path], that is
    [Path(path).parent]: the text before the last component of [path],
    without the slashes that end it.  [None] when that text names the root,
    the current directory or one above it, which are there. *)
Definition parent_of (path : string) : option string :=
  let name_first := drop_while is_slash (rev (list_ascii_of_string path)) in
  let above := drop_while is_slash (drop_while (fun c => negb (is_slash c)) name_first) in
  let parent := string_of_list_ascii (rev above) in
  if forallb dot_component (components_from "" parent) then None else Some parent.

(** [Path.is_dir] *)
Definition is_dir (w : World) (path : string) : bool :=
  match files w !! path with
  | Some Directory => true
  | _ => false
  end.

Definition ends_with_slash (path : string) : bool :=
  match rev (list_ascii_of_string path) with
  | c :: _ => is_slash c
  | [] => false
  end.

(** What [to_csv] does to get at the file: [check_parent_directory(path)]
    and [open(path, "a")].  The result is the text that is there, the empty
    text for a file that is created, or the exception. *)
Definition open_for_append (w : World) (filename : string) : result string :=
  match files w !! filename with
  | Some (RegularFile old) => Ok old
  | Some Directory =>
      Raise (Exc IsADirectoryError
               ("[Errno 21] Is a directory: '" +:+ filename +:+ "'"))
  | Some (Refused _ e) => Raise e
  | None =>
      if match parent_of filename with
         | Some parent => is_dir w parent
         | None => true
         end
      then
        if decide (filename = "")
        then Raise (Exc FileNotFoundError
                      "[Errno 2] No such file or directory: ''")
        else if ends_with_slash filename
        then Raise (Exc IsADirectoryError
                      ("[Errno 21] Is a directory: '" +:+ filename +:+ "'"))
        else Ok ""
      else
        Raise (Exc OSError
                 ("Cannot save file into a non-existent directory: '"
                  +:+ default "" (parent_of filename) +:+ "'"))
  end.

(** [df.to_csv(filename, mode="a", header=header, index=False)]: the text
    of the header row, when asked for, and of the rows is put after the text
    that is there. *)
Definition to_csv (df : DataFrame) (filename : string) (header : bool) : M unit :=
  fun w =>
    let written :=
      (if header then csv_line (columns df) else "")
      +:+ csv_text (List.map (List.map csv_cell) (rows df)) in
    match open_for_append w filename with
    | Ok old =>
        Returns tt {| files := <[filename := RegularFile (old +:+ written)]> (files w);
                      stdout := stdout w; log := log w |}
    | Raise e => Raises e w
    end.

(** [write_csv] *)
Definition write_csv (filename : string) (data : list ParsedRecord) : M unit :=
  do _ <- logging INFO ("Writing data to CSV file: " +:+ filename);
  let df := make_frame data in
  do present <- file_exists filename;
  to_csv df filename (negb present).

(** The command line after [argparse]. *)
Record Args := {
  query : string;
  file : string;
  max : Z;
  debug : bool }.

(** [main], from line 19 on: the body of the [try], the handler, and the
    whole.  The call of [logging.basicConfig] at line 17 changes nothing:
    the root logger was configured, at level INFO, when [pubmed] was
    imported. *)
Definition main_try (env : Env) (args : Args) : M unit :=
  do _ <- logging INFO ("Fetching paper IDs for query: " +:+ query args);
  do paper_ids <- fetch_paper_ids env (query args) (max args);
  do n <- lift (py_len paper_ids);
  do _ <- logging INFO ("Fetching details for " +:+ pretty n +:+ " papers");
  do results <- fetch_details_concurrently (scheduler env) paper_ids
                  (fetch_paper_details env);
  do _ <- logging INFO ("Writing results to " +:+ file args);
  do _ <- write_csv (file args) results;
  logging INFO ("Results successfully saved to " +:+ file args).

Definition main_except (e : Exception) : M unit :=
  do _ <- logging ERROR ("An error occurred: " +:+ exc_str e);
  print ("Error: " +:+ exc_str e).

Definition main (env : Env) (args : Args) : M unit :=
  try_except (main_try env args) main_except.

(** The exit status of the interpreter running [main()]: 0 when [main]
    returns, 1 when an exception leaves it. *)
Definition exit_status (o : outcome unit) : option Z :=
  match o with
  | Returns _ _ => Some 0%Z
  | Raises _ _ => Some 1%Z
  | Blocked => None
  end.

(** ** The specification's reading of some fields *)

(** The exception of [keyword in None]. *)
Definition not_iterable : Exception :=
  Exc TypeError "argument of type 'NoneType' is not iterable".

(** The publication date as the specification words it: the fields of the
    first [DateCompleted] node whenever there is such a node. *)
Definition publication_date_spec (root : Element) : string :=
  match ET.find_desc "DateCompleted" root with
  | Some node =>
      PyStr.fmt (text_or_na (ET.find "Year" node)) +:+ "-" +:+
      PyStr.fmt (text_or_na (ET.find "Month" node)) +:+ "-" +:+
      PyStr.fmt (text_or_na (ET.find "Day" node))
  | None => "N/A"
  end.

(** The candidate emails as the specification words them: the
    whitespace-separated tokens with an ["@"] of the authors' affiliation
    strings, in document order. *)
Definition candidate_emails (authors : list Element) : list string :=
  flat_map (fun author =>
              match affiliation_of author with
              | Some s => List.filter (PyStr.contains "@") (PyStr.split s)
              | None => []
              end) authors.

(** The identifier list at the path [esearchresult/idlist] of a response,
    when both dicts and the key are there. *)
Definition idlist_at_path (data : json) : option json :=
  match data with
  | JDict top =>
      match assoc "esearchresult" top with
      | Some (JDict inner) => assoc "idlist" inner
      | _ => None
      end
  | _ => None
  end.

(** The six keys of a parsed record, which are the columns of the file. *)
Definition fixed_fields : list string :=
  [ "PubmedID"; "Title"; "Publication Date"; "Non-academic Author(s)";
    "Company Affiliation(s)"; "Corresponding Author Email" ].

(** ** Notions used in the statements *)

(** The state after one more log line. *)
Definition logged (w : World) (level : LogLevel) (msg : string) : World :=
  {| files := files w; stdout := stdout w; log := log w ++ [(level, msg)] |}.

(** The parameters of the search request (lines 46-51). *)
Definition esearch_params (search_term : string) (max_results : Z) : list (string * json) :=
  [ ("db", JStr "pubmed"); ("term", JStr search_term);
    ("retmax", JNum max_results); ("retmode", JStr "json") ].

(** The state after the log line of [fetch_paper_ids]. *)
Definition esearch_logged (w : World) (search_term : string) (max_results : Z) : World :=
  logged w INFO ("Fetching paper IDs for search term: " +:+ search_term
                 +:+ " with max results: " +:+ pretty max_results).

(** The rows [to_csv] writes for a list of records. *)
Definition csv_rows (data : list ParsedRecord) : list (list string) :=
  List.map (List.map csv_cell) (rows (make_frame data)).

(** A computation that returns or raises without touching the files or the
    standard output. *)
Definition quiet {A} (c : M A) : Prop :=
  forall w,
    match c w with
    | Returns _ w' | Raises _ w' => files w' = files w /\ stdout w' = stdout w
    | Blocked => False
    end.

(** What comes before the writer in [main_try]. *)
Definition before_write (env : Env) (args : Args) : M (list ParsedRecord) :=
  do _ <- logging INFO ("Fetching paper IDs for query: " +:+ query args);
  do paper_ids <- fetch_paper_ids env (query args) (max args);
  do n <- lift (py_len paper_ids);
  do _ <- logging INFO ("Fetching details for " +:+ pretty n +:+ " papers");
  do results <- fetch_details_concurrently (scheduler env) paper_ids
                  (fetch_paper_details env);
  do _ <- logging INFO ("Writing results to " +:+ file args);
  ret results.

Section PoolInvariant.
Context {A B : Type} (rebuild : Exception -> Exception)
        (func : A -> result B) (xs : list A) (c : nat).

(** The slots of the items of the tasks in [D] hold their results, the
    other slots are empty. *)
Definition slots_filled (D : list nat) (v : list (option B)) : Prop :=
  length v = length xs /\
  forall j x, xs !! j = Some x ->
    (j / c ∈ D -> exists y, func x = Ok y /\ v !! j = Some (Some y)) /\
    (j / c ∉ D -> v !! j = Some None).

(** What holds of a [MapResult] once the tasks in [D] have come back. *)
Definition collect_inv (D : list nat) (m : Pool.MapResult) : Prop :=
  Pool.mr_number_left m + length D = Pool.number_of_tasks c (length xs) /\
  (Pool.mr_success m = true -> slots_filled D (Pool.mr_value m)) /\
  (Pool.mr_success m = false ->
     exists e x, Pool.mr_error m = Some (rebuild e) /\ x ∈ xs /\ func x = Raise e).

End PoolInvariant.

(** ** Sample inputs *)

Module Sample.

Definition leaf (t s : string) : Element := Elem t (Some s) [].

(** A set order: the one of [elements]. *)
Definition order : SetOrder :=
  {| set_iter := elements; set_iter_perm := fun s => Permutation_refl (elements s) |}.

(** [<PubmedArticle><DateCompleted/></PubmedArticle>] *)
Definition childless_date : Element :=
  Elem "PubmedArticle" None [Elem "DateCompleted" None []].

(** A date without [Day]. *)
Definition date_without_day : Element :=
  Elem "PubmedArticle" None
    [Elem "DateCompleted" None [leaf "Year" "2020"; leaf "Month" "05"]].

(** An article whose title starts with markup:
    [<ArticleTitle><i>In vivo</i> study</ArticleTitle>]. *)
Definition markup_title : Element :=
  Elem "PubmedArticle" None
    [ leaf "PMID" "123";
      Elem "ArticleTitle" None [leaf "i" "In vivo"] ].

(** The record the parser builds from it. *)
Definition markup_title_record : ParsedRecord :=
  [ ("PubmedID", Some "123");
    ("Title", None);
    ("Publication Date", Some "N/A");
    ("Non-academic Author(s)", Some "None");
    ("Company Affiliation(s)", Some "None");
    ("Corresponding Author Email", Some "None") ].

Definition author (fore last : string) (rest : list Element) : Element :=
  Elem "Author" None (leaf "LastName" last :: leaf "ForeName" fore :: rest).

Definition affiliated (s : string) : list Element :=
  [Elem "AffiliationInfo" None [leaf "Affiliation" s]].

Definition jane : Element :=
  author "Jane" "Doe" (affiliated "Acme Labs, Boston. jane@acme.com").

Definition rick : Element :=
  author "Rick" "Roe" (affiliated "University of X, Pharma unit. roe@x.edu").

(** An author without any [Affiliation]. *)
Definition paul : Element := author "Paul" "Poe" [].

(** An author whose [Affiliation] element is empty: [<Affiliation/>]. *)
Definition nora : Element :=
  author "Nora" "Noe" [Elem "AffiliationInfo" None [Elem "Affiliation" None []]].

Definition article (authors : list Element) : Element :=
  Elem "PubmedArticleSet" None
    [Elem "PubmedArticle" None
       [ leaf "PMID" "123";
         leaf "ArticleTitle" "A study";
         Elem "AuthorList" None authors ]].

(** A scheduler: the last task comes back first. *)
Definition last_first : Scheduler :=
  {| completion_order := fun k => rev (seq 0 k);
     completion_order_perm := fun k => Permutation_sym (Permutation_rev (seq 0 k));
     rebuilt := fun e => e |}.

(** The fetch+parse stub of the specification: the title of record [N]
    is ["T" + N]. *)
Definition title_stub (pubmed_id : json) : result ParsedRecord :=
  match pubmed_id with
  | JStr n => Ok [("Title", Some ("T" +:+ n))]
  | _ => Ok [("Title", None)]
  end.

Definition ok_json (data : json) : Response :=
  {| status_code := 200; reason := "OK"; url := BASE_URL +:+ "/esearch.fcgi";
     json_result := Ok data;
     xml_result := Raise (Exc ParseError "syntax error: line 1, column 0") |}.

(** A service that answers every search with three identifiers. *)
Definition three_ids : Env :=
  {| requests_get := fun _ _ =>
       Ok (ok_json (JDict [("esearchresult",
                            JDict [("idlist", JList [JStr "1"; JStr "2"; JStr "3"])])]));
     set_order := order;
     scheduler := last_first |}.

(** A service that is down. *)
Definition unavailable : Env :=
  {| requests_get := fun _ _ =>
       Ok {| status_code := 503; reason := "Service Unavailable";
             url := BASE_URL +:+ "/esearch.fcgi";
             json_result := Raise (Exc JSONDecodeError
                                     "Expecting value: line 1 column 1 (char 0)");
             xml_result := Raise (Exc ParseError "syntax error: line 1, column 0") |};
     set_order := order;
     scheduler := last_first |}.

Definition empty_world : World := {| files := ∅; stdout := []; log := [] |}.

Definition args : Args :=
  {| query := "cancer"; file := "results.csv"; max := 1; debug := false |}.

(** A parsed record. *)
Definition record : ParsedRecord :=
  [ ("PubmedID", Some "123"); ("Title", Some "A study");
    ("Publication Date", Some "2020-05-17");
    ("Non-academic Author(s)", Some "Jane Doe");
    ("Company Affiliation(s)", Some "None");
    ("Corresponding Author Email", Some "jane@acme.com") ].

End Sample.

(** ** Further notions used in the statements *)

(** [any(keyword in s for keyword in keywords)] for a string [s]. *)
Definition has_keyword (keywords : list string) (s : string) : bool :=
  existsb (fun keyword => PyStr.contains keyword s) keywords.

(** The authors whose affiliation is a string without an academic keyword,
    in document order. *)
Definition listed_authors (authors : list Element) : list Element :=
  List.filter (fun author =>
                 match affiliation_of author with
                 | Some s => negb (has_keyword academic_keywords s)
                 | None => false
                 end) authors.

(** The names of the authors whose affiliation is a string without an
    academic keyword, in document order. *)
Definition non_academic_names (authors : list Element) : list string :=
  List.map author_name_of
    (List.filter (fun author =>
                    match affiliation_of author with
                    | Some s => negb (has_keyword academic_keywords s)
                    | None => false
                    end) authors).

(** The affiliation strings that have a company keyword, one for each
    author that has such an affiliation, in document order. *)
Definition company_strings (authors : list Element) : list string :=
  omap (fun author =>
          match affiliation_of author with
          | Some s => if has_keyword company_keywords s then Some s else None
          | None => None
          end) authors.

(** The parameters of the fetch request (lines 69-73). *)
Definition efetch_params (pubmed_id : json) : list (string * json) :=
  [ ("db", JStr "pubmed"); ("id", pubmed_id); ("retmode", JStr "xml") ].

(** The status codes for which [raise_for_status] raises. *)
Definition error_status (status : Z) : Prop := (400 <= status < 600)%Z.

(** Is the value a dict? *)
Definition is_dict (x : json) : bool :=
  match x with
  | JDict _ => true
  | _ => false
  end.







(** The state after the log line of [fetch_details_concurrently]. *)
Definition pool_logged (w : World) (n : nat) : World :=
  logged w INFO ("Using multiprocessing to fetch details for "
                 +:+ pretty n +:+ " PubMed IDs").


(** ** Further sample inputs *)

Module Fixture.

(** Two authors of the same company and one of a university. *)
Definition ann : Element :=
  Sample.author "Ann" "Lee" (Sample.affiliated "Acme Pharma Inc., Basel").

Definition bob : Element :=
  Sample.author "Bob" "Ray" (Sample.affiliated "Acme Pharma Inc., Basel").

Definition cleo : Element :=
  Sample.author "Cleo" "Fox" (Sample.affiliated "College of Medicine, Y").

(** An article that cites another one: the second [PMID] is the cited
    article's. *)
Definition citing : Element :=
  Elem "PubmedArticle" None
    [ Sample.leaf "PMID" "123";
      Sample.leaf "ArticleTitle" "A study";
      Elem "ReferenceList" None [Sample.leaf "PMID" "999"] ].

(** An author whose name parts are not direct children. *)
Definition wrapped_name : Element :=
  Elem "Author" None
    [Elem "Name" None [Sample.leaf "LastName" "Doe"; Sample.leaf "ForeName" "Jane"]].

Definition xml_response (status : Z) (why : string) (root : Element) : Response :=
  {| status_code := status; reason := why; url := BASE_URL +:+ "/efetch.fcgi";
     json_result := Raise (Exc JSONDecodeError
                             "Expecting value: line 1 column 1 (char 0)");
     xml_result := Ok root |}.

(** Is the request a search? *)
Definition is_search (url : string) : bool :=
  if decide (url = BASE_URL +:+ "/esearch.fcgi") then true else false.

(** A service that finds the identifiers [ids] and holds the article
    [Sample.article [Sample.jane]] under each of them. *)
Definition serving (ids : list json) : Env :=
  {| requests_get := fun url _ =>
       if is_search url
       then Ok (Sample.ok_json (JDict [("esearchresult", JDict [("idlist", JList ids)])]))
       else Ok (xml_response 200 "OK" (Sample.article [Sample.jane]));
     set_order := Sample.order;
     scheduler := Sample.last_first |}.

(** A service whose fetch endpoint refuses every request. *)
Definition refusing : Env :=
  {| requests_get := fun url _ =>
       if is_search url
       then Ok (Sample.ok_json
                  (JDict [("esearchresult", JDict [("idlist", JList [JStr "1"; JStr "2"])])]))
       else Ok (xml_response 429 "Too Many Requests" (Sample.article [Sample.jane]));
     set_order := Sample.order;
     scheduler := Sample.last_first |}.

(** A service that answers a search with a JSON list. *)
Definition answering_list : Env :=
  {| requests_get := fun _ _ => Ok (Sample.ok_json (JList []));
     set_order := Sample.order;
     scheduler := Sample.last_first |}.

(** A fetch that fails for the identifiers "1" and "2", each with its own
    exception. *)
Definition failing_fetch (pubmed_id : json) : result ParsedRecord :=
  match pubmed_id with
  | JStr "1" => Raise (Exc HTTPError "first")
  | JStr "2" => Raise (Exc ParseError "second")
  | _ => Ok Sample.record
  end.




(** A pool whose last task comes back first and in which a worker's
    exception reaches the parent with another text. *)
Definition retelling : Scheduler :=
  {| completion_order := fun k => rev (seq 0 k);
     completion_order_perm := fun k => Permutation_sym (Permutation_rev (seq 0 k));
     rebuilt := fun e => Exc (exc_class e) ("(rebuilt) " +:+ exc_str e) |}.


End Fixture.

(** * Properties *)

(** ** Strings *)

Lemma startswith_spec p s :
  PyStr.startswith p s = true <-> exists suf, s = p +:+ suf.
Proof.
  revert s. induction p as [|a p IH]; intros s; simpl.
  - split; [intros _; by exists s | done].
  - destruct s as [|b s]; simpl.
    + split; [done | intros [suf H]; discriminate H].
    + destruct (Ascii.eqb a b) eqn:E.
      * apply Ascii.eqb_eq in E as ->. rewrite IH.
        split; intros [suf H]; exists suf; [by rewrite H | by injection H].
      * apply Ascii.eqb_neq in E.
        split; [done | intros [suf H]; injection H as -> _; done].
Qed.

Lemma contains_unfold sub s :
  PyStr.contains sub s =
  PyStr.startswith sub s ||
  match s with
  | EmptyString => false
  | String _ s' => PyStr.contains sub s'
  end.
Proof. by destruct s. Qed.

Lemma contains_spec sub s :
  PyStr.contains sub s = true <-> PyStr.substring_of sub s.
Proof.
  unfold PyStr.substring_of. split.
  - induction s as [|c s IH]; rewrite contains_unfold; intros H;
      apply orb_true_iff in H as [H|H]; try discriminate.
    + apply startswith_spec in H as [suf ->]. by exists "", suf.
    + apply startswith_spec in H as [suf ->]. by exists "", suf.
    + destruct (IH H) as (pre & suf & ->). by exists (String c pre), suf.
  - intros (pre & suf & ->). induction pre as [|c pre IH]; rewrite contains_unfold.
    + apply orb_true_iff. left. apply startswith_spec. by exists suf.
    + apply orb_true_iff. right. exact IH.
Qed.

Lemma contains_false sub s :
  PyStr.contains sub s = false <-> ~ PyStr.substring_of sub s.
Proof.
  rewrite <- contains_spec. destruct (PyStr.contains sub s); split; done.
Qed.

(** On a string, [any] is the disjunction of the tests. *)
Lemma any_keyword_in_str keywords s :
  any_keyword_in keywords (Some s) =
  Ok (existsb (fun keyword => PyStr.contains keyword s) keywords).
Proof.
  induction keywords as [|k ks IH]; simpl; [done|].
  destruct (PyStr.contains k s); [done | exact IH].
Qed.

Lemma any_keyword_in_none keywords :
  keywords <> [] ->
  any_keyword_in keywords None =
  Raise (Exc TypeError "argument of type 'NoneType' is not iterable").
Proof. by destruct keywords. Qed.

Lemma existsb_contains_true keywords s :
  existsb (fun keyword => PyStr.contains keyword s) keywords = true <->
  exists keyword, keyword ∈ keywords /\ PyStr.substring_of keyword s.
Proof.
  rewrite existsb_exists. split; intros (k & Hk & H); exists k.
  - by rewrite list_elem_of_In, <- contains_spec.
  - by rewrite <- list_elem_of_In, contains_spec.
Qed.

Lemma existsb_contains_false keywords s :
  existsb (fun keyword => PyStr.contains keyword s) keywords = false <->
  forall keyword, keyword ∈ keywords -> ~ PyStr.substring_of keyword s.
Proof.
  destruct (existsb _ keywords) eqn:E.
  - apply existsb_contains_true in E as (k & Hk & H). split; [done|].
    intros Hn. by destruct (Hn k Hk).
  - split; [|done]. intros _ k Hk H.
    assert (existsb (fun keyword => PyStr.contains keyword s) keywords = true) as E'
      by (apply existsb_contains_true; eauto).
    congruence.
Qed.

(** The words of [split] are not empty and hold no whitespace. *)
Lemma list_ascii_snoc s c :
  list_ascii_of_string (PyStr.snoc s c) = list_ascii_of_string s ++ [c].
Proof. unfold PyStr.snoc. induction s as [|a s IH]; simpl; [done | by rewrite IH]. Qed.

Lemma split_from_words cur s w :
  Forall (fun c => PyStr.isspace c = false) (list_ascii_of_string cur) ->
  w ∈ PyStr.split_from cur s ->
  w <> "" /\ Forall (fun c => PyStr.isspace c = false) (list_ascii_of_string w).
Proof.
  revert cur. induction s as [|c s IH]; intros cur Hcur; simpl.
  - case_decide as Hc; [intros Hw; by apply not_elem_of_nil in Hw|].
    intros Hw. apply list_elem_of_singleton in Hw as ->. done.
  - destruct (PyStr.isspace c) eqn:Ec.
    + case_decide as Hc.
      * apply IH. constructor.
      * intros Hw. apply elem_of_cons in Hw as [->|Hw]; [done|].
        revert Hw. apply IH. constructor.
    + apply IH. rewrite list_ascii_snoc. apply Forall_app. split; [done|].
      by repeat constructor.
Qed.

Lemma split_words s w :
  w ∈ PyStr.split s ->
  w <> "" /\ Forall (fun c => PyStr.isspace c = false) (list_ascii_of_string w).
Proof. apply split_from_words. constructor. Qed.

Lemma append_cons a s t : String a s +:+ t = String a (s +:+ t).
Proof. reflexivity. Qed.

Lemma append_snoc cur c w : cur +:+ String c w = PyStr.snoc cur c +:+ w.
Proof.
  unfold PyStr.snoc. induction cur as [|a cur IH]; [done|].
  by rewrite !append_cons, IH.
Qed.

Lemma append_empty_r s : s +:+ "" = s.
Proof. induction s as [|a s IH]; [done|]. by rewrite append_cons, IH. Qed.

(** A run without whitespace is read into the current word. *)
Lemma split_from_word cur w s :
  Forall (fun c => PyStr.isspace c = false) (list_ascii_of_string w) ->
  PyStr.split_from cur (w +:+ s) = PyStr.split_from (cur +:+ w) s.
Proof.
  revert cur. induction w as [|c w IH]; intros cur Hw.
  - by rewrite append_empty_r.
  - simpl in Hw. apply Forall_cons in Hw as [Hc Hw].
    rewrite append_cons. cbn [PyStr.split_from].
    rewrite Hc, (IH _ Hw). by rewrite append_snoc.
Qed.

(** Words joined by single spaces are split into the same words. *)
Lemma split_join_words ws :
  Forall (fun w => w <> "" /\
                   Forall (fun c => PyStr.isspace c = false) (list_ascii_of_string w)) ws ->
  PyStr.split (PyStr.join " " ws) = ws.
Proof.
  unfold PyStr.split. induction 1 as [|w ws [Hne Hw] Hws IH]; [done|].
  destruct ws as [|w' ws].
  - cbn [PyStr.join]. rewrite <- (append_empty_r w) at 1.
    rewrite (split_from_word _ _ _ Hw). cbn [PyStr.split_from]. by case_decide.
  - change (PyStr.join " " (w :: w' :: ws))
      with (w +:+ " " +:+ PyStr.join " " (w' :: ws)).
    rewrite (split_from_word _ _ _ Hw).
    change ("" +:+ w) with w. rewrite append_cons.
    change ("" +:+ PyStr.join " " (w' :: ws)) with (PyStr.join " " (w' :: ws)).
    cbn [PyStr.split_from]. change (PyStr.isspace " ") with true. cbv iota.
    case_decide; [done|]. by rewrite IH.
Qed.

Example split_sample :
  PyStr.split "  Acme Labs,	Boston. jane@acme.com " =
    ["Acme"; "Labs,"; "Boston."; "jane@acme.com"].
Proof. reflexivity. Qed.

Lemma append_assoc s t u : (s +:+ t) +:+ u = s +:+ (t +:+ u).
Proof. induction s as [|a s IH]; [done|]. by rewrite !append_cons, IH. Qed.

(** ** The element tree *)

Lemma has_tag_true t e : ET.has_tag t e = true <-> tag e = t.
Proof. unfold ET.has_tag. by case_decide. Qed.

Lemma findall_desc_spec t root e :
  e ∈ ET.findall_desc t root <-> e ∈ ET.descendants root /\ tag e = t.
Proof.
  unfold ET.findall_desc.
  by rewrite !list_elem_of_In, filter_In, has_tag_true.
Qed.

Lemma find_desc_None t root :
  ET.find_desc t root = None <->
  forall e, e ∈ ET.descendants root -> tag e <> t.
Proof.
  unfold ET.find_desc. rewrite head_None. split.
  - intros H e He Ht.
    assert (e ∈ ET.findall_desc t root) as Hin by by apply findall_desc_spec.
    rewrite H in Hin. by apply not_elem_of_nil in Hin.
  - intros H. destruct (ET.findall_desc t root) as [|e l] eqn:E; [done|].
    assert (e ∈ ET.findall_desc t root) as Hin by (rewrite E; left).
    apply findall_desc_spec in Hin as [He Ht]. by destruct (H e He).
Qed.

Lemma find_desc_Some t root e :
  ET.find_desc t root = Some e -> e ∈ ET.descendants root /\ tag e = t.
Proof.
  unfold ET.find_desc. intros H. apply findall_desc_spec.
  destruct (ET.findall_desc t root); simplify_eq/=. left.
Qed.

(** ** One author *)

Lemma author_step_str st author s :
  affiliation_of author = Some s ->
  author_step st author =
  Ok {| non_academic_authors :=
          if existsb (fun k => PyStr.contains k s) academic_keywords
          then non_academic_authors st
          else non_academic_authors st ++ [author_name_of author];
        company_affiliations :=
          if existsb (fun k => PyStr.contains k s) company_keywords
          then {[s]} ∪ company_affiliations st
          else company_affiliations st;
        corresponding_author_email :=
          if str_truthy (email_of (Some s))
          then (if str_truthy (corresponding_author_email st)
                then corresponding_author_email st
                else email_of (Some s))
          else corresponding_author_email st |}.
Proof.
  intros Ha. unfold author_step, is_academic, is_company.
  rewrite Ha, !any_keyword_in_str. cbn [rbind].
  destruct (existsb (fun k => PyStr.contains k s) academic_keywords),
    (existsb (fun k => PyStr.contains k s) company_keywords),
    (str_truthy (email_of (Some s))), (str_truthy (corresponding_author_email st));
    reflexivity.
Qed.

Lemma author_step_none st author :
  affiliation_of author = None ->
  author_step st author = Raise not_iterable.
Proof. intros Ha. unfold author_step. by rewrite Ha. Qed.

Lemma author_step_raises st author e :
  author_step st author = Raise e -> e = not_iterable.
Proof.
  destruct (affiliation_of author) as [s|] eqn:Ha.
  - by rewrite (author_step_str _ _ _ Ha).
  - rewrite (author_step_none _ _ Ha). congruence.
Qed.

(** ** The author loop *)

Lemma for_authors_app st l1 l2 :
  for_authors st (l1 ++ l2) =
  let* st' := for_authors st l1 in for_authors st' l2.
Proof.
  revert st. induction l1 as [|a l1 IH]; intros st; simpl; [done|].
  destruct (author_step st a); simpl; [apply IH | done].
Qed.

(** The only exception of the loop is the [TypeError] of [keyword in None]. *)
Lemma for_authors_raises st authors e :
  for_authors st authors = Raise e -> e = not_iterable.
Proof.
  revert st. induction authors as [|a l IH]; intros st; simpl; [done|].
  destruct (author_step st a) as [st'|e'] eqn:E; simpl.
  - apply IH.
  - intros [= <-]. by apply author_step_raises in E.
Qed.

Lemma for_authors_none st authors author :
  author ∈ authors -> affiliation_of author = None ->
  for_authors st authors = Raise not_iterable.
Proof.
  intros Hin Ha. revert st.
  induction authors as [|a l IH]; intros st; [by apply not_elem_of_nil in Hin|].
  simpl. destruct (author_step st a) as [st'|e'] eqn:E; simpl.
  - apply elem_of_cons in Hin as [->|Hin]; [|by apply IH].
    rewrite (author_step_none _ _ Ha) in E. discriminate.
  - by rewrite (author_step_raises _ _ _ E).
Qed.

Lemma for_authors_total st authors :
  (forall a, a ∈ authors -> affiliation_of a <> None) ->
  exists st', for_authors st authors = Ok st'.
Proof.
  revert st. induction authors as [|a l IH]; intros st H; simpl; [by eexists|].
  destruct (affiliation_of a) as [s|] eqn:Ha; [|by destruct (H a); [left|]].
  rewrite (author_step_str _ _ _ Ha). simpl. apply IH.
  intros a' Ha'. apply H. by right.
Qed.

(** The list of non-academic authors only grows, and the company set only
    receives affiliations that have a company keyword. *)
Lemma author_step_grows st author st' :
  author_step st author = Ok st' ->
  (forall n, n ∈ non_academic_authors st -> n ∈ non_academic_authors st') /\
  (forall c, c ∈ company_affiliations st' ->
             c ∈ company_affiliations st \/
             existsb (fun k => PyStr.contains k c) company_keywords = true).
Proof.
  destruct (affiliation_of author) as [s|] eqn:Ha;
    [|by rewrite (author_step_none _ _ Ha)].
  rewrite (author_step_str _ _ _ Ha). intros [= <-].
  cbn [non_academic_authors company_affiliations]. split.
  - intros n Hn.
    case_match; [exact Hn|].
    apply elem_of_app. by left.
  - intros c Hc.
    case_match eqn:E; [|left; exact Hc].
    apply elem_of_union in Hc as [Hc|Hc]; [|by left].
    apply elem_of_singleton in Hc as ->. by right.
Qed.

Lemma for_authors_grows st authors st' :
  for_authors st authors = Ok st' ->
  (forall n, n ∈ non_academic_authors st -> n ∈ non_academic_authors st') /\
  (forall c, c ∈ company_affiliations st' ->
             c ∈ company_affiliations st \/
             existsb (fun k => PyStr.contains k c) company_keywords = true).
Proof.
  revert st. induction authors as [|a l IH]; intros st; simpl.
  - intros [= <-]. split; [done | by left].
  - destruct (author_step st a) as [st1|] eqn:E; simpl; [|done].
    intros H. apply IH in H as [H1 H2].
    apply author_step_grows in E as [E1 E2]. split.
    + intros n Hn. by apply H1, E1.
    + intros c Hc. destruct (H2 c Hc) as [Hc'|]; [by apply E2 | by right].
Qed.

(** C10: an author node without any Affiliation descendant gets the
    affiliation "N/A", which has no academic and no company keyword; the
    loop appends the author's name to the non-academic list and leaves the
    company set (and the email) as they are.  In a record parsed from any
    list of authors, the name of such an author is in the non-academic list
    and "N/A" is not in the company set. *)
Theorem C10_no_affiliation_is_non_academic st author :
  (forall e, e ∈ ET.descendants author -> tag e <> "Affiliation") ->
  affiliation_of author = Some "N/A" /\
  (forall k, k ∈ ["University"; "Institute"; "College"; "Research"; "Academy";
                  "Pharma"; "Biotech"; "Pharmaceutical"; "Biotechnology"] ->
             ~ PyStr.substring_of k "N/A") /\
  is_academic (affiliation_of author) = Ok false /\
  is_company (affiliation_of author) = Ok false /\
  author_step st author =
    Ok {| non_academic_authors := non_academic_authors st ++ [author_name_of author];
          company_affiliations := company_affiliations st;
          corresponding_author_email := corresponding_author_email st |} /\
  (forall authors st',
     author ∈ authors -> for_authors loop_init authors = Ok st' ->
     author_name_of author ∈ non_academic_authors st' /\
     "N/A" ∉ company_affiliations st').
Proof.
  intros Hno. apply find_desc_None in Hno.
  assert (affiliation_of author = Some "N/A") as Ha
    by (unfold affiliation_of; by rewrite Hno).
  assert (forall st0, author_step st0 author =
    Ok {| non_academic_authors := non_academic_authors st0 ++ [author_name_of author];
          company_affiliations := company_affiliations st0;
          corresponding_author_email := corresponding_author_email st0 |}) as Hstep
    by (intros st0; by rewrite (author_step_str _ _ _ Ha)).
  split; [exact Ha|]. split; [|split; [|split; [|split]]].
  - intros k Hk. apply contains_false.
    repeat (apply elem_of_cons in Hk as [->|Hk]; [reflexivity|]).
    by apply not_elem_of_nil in Hk.
  - by rewrite Ha.
  - by rewrite Ha.
  - apply Hstep.
  - intros authors st' Hin Hrun. split.
    + apply list_elem_of_split in Hin as (l1 & l2 & ->).
      rewrite for_authors_app in Hrun.
      destruct (for_authors loop_init l1) as [st1|] eqn:E1; simpl in Hrun; [|done].
      rewrite Hstep in Hrun. simpl in Hrun.
      apply for_authors_grows in Hrun as [Hrun _]. apply Hrun. simpl.
      apply elem_of_app. right. left.
    + intros Hc. apply for_authors_grows in Hrun as [_ Hrun].
      destruct (Hrun _ Hc) as [H|H]; [by apply not_elem_of_empty in H | done].
Qed.

(** C9: the parser is not total on well-formed input.  For an author whose
    first Affiliation element has no text, the affiliation is None: the
    guard of the email search skips it, the substring test of is_academic
    raises a TypeError, and so does parse_paper_details on any record that
    has such an author. *)
Theorem C9_empty_affiliation_raises ord root author aff :
  author ∈ ET.findall_desc "Author" root ->
  ET.find_desc "Affiliation" author = Some aff ->
  text aff = None ->
  affiliation_of author = None /\
  email_of (affiliation_of author) = None /\
  is_academic (affiliation_of author) = Raise not_iterable /\
  parse_paper_details ord root = Raise not_iterable.
Proof.
  intros Hin Hfind Htext.
  assert (affiliation_of author = None) as Ha
    by (unfold affiliation_of; by rewrite Hfind).
  split; [exact Ha|]. rewrite Ha. split; [done|]. split; [done|].
  unfold parse_paper_details. by rewrite (for_authors_none _ _ _ Hin Ha).
Qed.

(** ** The corresponding author's email *)

Lemma at_word_truthy w :
  PyStr.contains "@" w = true -> str_truthy (Some w) = true.
Proof. destruct w; [discriminate | done]. Qed.

Lemma head_filter_truthy l :
  str_truthy (head (List.filter (PyStr.contains "@") l)) =
  match head (List.filter (PyStr.contains "@") l) with
  | Some _ => true
  | None => false
  end.
Proof.
  destruct (List.filter (PyStr.contains "@") l) as [|w l'] eqn:E; [done|].
  assert (In w (List.filter (PyStr.contains "@") l)) as Hin by (rewrite E; by left).
  apply filter_In in Hin as [_ Hw]. simpl. by apply at_word_truthy.
Qed.

(** The email found for an affiliation string is its first candidate. *)
Lemma email_of_str s :
  email_of (Some s) = head (List.filter (PyStr.contains "@") (PyStr.split s)).
Proof.
  unfold email_of, str_truthy. case_decide as Hs; [by subst | done].
Qed.

(** Once set, the email is kept. *)
Lemma author_step_keeps_email st author st' :
  str_truthy (corresponding_author_email st) = true ->
  author_step st author = Ok st' ->
  corresponding_author_email st' = corresponding_author_email st.
Proof.
  intros Hset.
  destruct (affiliation_of author) as [s|] eqn:Ha;
    [|by rewrite (author_step_none _ _ Ha)].
  rewrite (author_step_str _ _ _ Ha). intros [= <-].
  cbn [corresponding_author_email]. rewrite Hset. by case_match.
Qed.

Lemma for_authors_email st authors :
  (forall a, a ∈ authors -> affiliation_of a <> None) ->
  exists st',
    for_authors st authors = Ok st' /\
    corresponding_author_email st' =
      if str_truthy (corresponding_author_email st)
      then corresponding_author_email st
      else match head (candidate_emails authors) with
           | Some e => Some e
           | None => corresponding_author_email st
           end.
Proof.
  revert st. induction authors as [|a l IH]; intros st H.
  - exists st. split; [done|]. simpl. by case_match.
  - destruct (affiliation_of a) as [s|] eqn:Ha; [|by destruct (H a); [left|]].
    destruct (IH
      {| non_academic_authors :=
           if existsb (fun k => PyStr.contains k s) academic_keywords
           then non_academic_authors st
           else non_academic_authors st ++ [author_name_of a];
         company_affiliations :=
           if existsb (fun k => PyStr.contains k s) company_keywords
           then {[s]} ∪ company_affiliations st
           else company_affiliations st;
         corresponding_author_email :=
           if str_truthy (email_of (Some s))
           then (if str_truthy (corresponding_author_email st)
                 then corresponding_author_email st
                 else email_of (Some s))
           else corresponding_author_email st |})
      as (st' & Hrun & Hmail).
    { intros a' Ha'. apply H. by right. }
    exists st'. split.
    { cbn [for_authors]. rewrite (author_step_str _ _ _ Ha). exact Hrun. }
    rewrite Hmail. cbn [corresponding_author_email candidate_emails flat_map].
    rewrite Ha, email_of_str, head_filter_truthy.
    destruct (List.filter (PyStr.contains "@") (PyStr.split s)) as [|w ws] eqn:E;
      cbn [head app].
    + done.
    + destruct (str_truthy (corresponding_author_email st)) eqn:Hst.
      * by rewrite Hst.
      * assert (In w (List.filter (PyStr.contains "@") (PyStr.split s))) as Hin
          by (rewrite E; by left).
        apply filter_In in Hin as [_ Hw]. by rewrite (at_word_truthy _ Hw).
Qed.

(** C4: in a record parsed from authors that all have an affiliation
    string, the email field is the first whitespace-separated token with an
    "@" met in document order across the authors' affiliations, and "None"
    when there is no such token; an email once found is never overwritten
    by a later author. *)
Theorem C4_first_email_wins ord root :
  (forall a, a ∈ ET.findall_desc "Author" root -> affiliation_of a <> None) ->
  (exists rec,
     parse_paper_details ord root = Ok rec /\
     assoc "Corresponding Author Email" rec =
       Some (Some (default "None"
                     (head (candidate_emails (ET.findall_desc "Author" root)))))) /\
  (forall st author st',
     str_truthy (corresponding_author_email st) = true ->
     author_step st author = Ok st' ->
     corresponding_author_email st' = corresponding_author_email st).
Proof.
  intros H. split; [|apply author_step_keeps_email].
  destruct (for_authors_email loop_init _ H) as (st' & Hrun & Hmail).
  unfold parse_paper_details. rewrite Hrun. cbn [rbind].
  eexists. split; [reflexivity|].
  cbn [assoc]. repeat (case_decide; [discriminate|]). case_decide; [|done].
  rewrite Hmail. cbn [loop_init corresponding_author_email str_truthy].
  destruct (candidate_emails (ET.findall_desc "Author" root)) as [|w ws] eqn:E;
    [done|]. cbn [head default].
  assert (PyStr.contains "@" w = true) as Hw.
  { assert (In w (candidate_emails (ET.findall_desc "Author" root))) as Hin
      by (rewrite E; by left).
    unfold candidate_emails in Hin. apply in_flat_map in Hin as (a & _ & Hin).
    destruct (affiliation_of a); [|done]. by apply filter_In in Hin as [_ Hw]. }
  by rewrite (at_word_truthy _ Hw).
Qed.

(** ** The classifications in a record *)

Lemma for_authors_state st authors :
  (forall a, a ∈ authors -> affiliation_of a <> None) ->
  exists st',
    for_authors st authors = Ok st' /\
    non_academic_authors st' = non_academic_authors st ++ non_academic_names authors /\
    company_affiliations st' =
      list_to_set (company_strings authors) ∪ company_affiliations st.
Proof.
  revert st. induction authors as [|a l IH]; intros st H.
  - exists st. split; [done|]. split; [by rewrite app_nil_r|].
    cbn [company_strings omap list_omap]. by rewrite list_to_set_nil, (left_id_L ∅ (∪)).
  - destruct (affiliation_of a) as [s|] eqn:Ha; [|by destruct (H a); [left|]].
    assert (forall a', a' ∈ l -> affiliation_of a' <> None) as Hl
      by (intros a' Ha'; apply H; by right).
    cbn [for_authors]. rewrite (author_step_str _ _ _ Ha). cbn [rbind].
    match goal with |- context [for_authors ?st1 l] =>
      destruct (IH st1 Hl) as (st' & Hrun & Hnames & Hset) end.
    exists st'. split; [exact Hrun|].
    rewrite Hnames, Hset. cbn [non_academic_authors company_affiliations].
    unfold non_academic_names, company_strings, has_keyword.
    cbn [List.filter omap list_omap]. rewrite Ha.
    destruct (existsb (fun k => PyStr.contains k s) academic_keywords),
      (existsb (fun k => PyStr.contains k s) company_keywords);
      cbn [negb List.map]; rewrite <- ?app_assoc, ?list_to_set_cons;
      (split; [done|]); try done;
      by rewrite (assoc_L (∪)), (comm_L (∪) _ {[s]}).
Qed.

(** The record of a list of authors that all have an affiliation string. *)
Lemma parse_paper_details_str ord root :
  (forall a, a ∈ ET.findall_desc "Author" root -> affiliation_of a <> None) ->
  parse_paper_details ord root =
    Ok [ ("PubmedID", text_or_na (ET.find_desc "PMID" root));
         ("Title", text_or_na (ET.find_desc "ArticleTitle" root));
         ("Publication Date", Some (publication_date_of root));
         ("Non-academic Author(s)",
           Some (match non_academic_names (ET.findall_desc "Author" root) with
                 | [] => "None"
                 | _ :: _ =>
                     PyStr.join "; " (non_academic_names (ET.findall_desc "Author" root))
                 end));
         ("Company Affiliation(s)",
           Some (match set_iter ord (list_to_set
                        (company_strings (ET.findall_desc "Author" root))) with
                 | [] => "None"
                 | _ :: _ =>
                     PyStr.join "; "
                       (set_iter ord (list_to_set
                          (company_strings (ET.findall_desc "Author" root))))
                 end));
         ("Corresponding Author Email",
           Some (default "None"
                   (head (candidate_emails (ET.findall_desc "Author" root))))) ].
Proof.
  intros Hall.
  destruct (for_authors_state loop_init _ Hall) as (st & Hrun & Hnames & Hset).
  destruct (for_authors_email loop_init _ Hall) as (st1 & Hrun1 & Hmail).
  rewrite Hrun in Hrun1. injection Hrun1 as <-.
  unfold parse_paper_details. rewrite Hrun. cbn [rbind].
  rewrite Hnames, Hset, Hmail. cbn [loop_init non_academic_authors
    company_affiliations corresponding_author_email str_truthy app].
  rewrite (right_id_L ∅ (∪)).
  set (authors := ET.findall_desc "Author" root).
  assert ((if decide (list_to_set (company_strings authors) = (∅ : gset string))
           then "None"
           else PyStr.join "; " (set_iter ord (list_to_set (company_strings authors)))) =
          match set_iter ord (list_to_set (company_strings authors)) with
          | [] => "None"
          | _ :: _ =>
              PyStr.join "; " (set_iter ord (list_to_set (company_strings authors)))
          end) as ->.
  { pose proof (set_iter_perm ord (list_to_set (company_strings authors))) as Hperm.
    case_decide as Hempty.
    - assert (elements (list_to_set (company_strings authors) : gset string) = [])
        as Hel by (rewrite Hempty; apply elements_empty).
      rewrite Hel in Hperm. by apply Permutation_nil_r in Hperm as ->.
    - destruct (set_iter ord (list_to_set (company_strings authors))) eqn:E; [|done].
      symmetry in Hperm. apply Permutation_nil_r in Hperm.
      apply elements_empty_inv in Hperm. by apply leibniz_equiv in Hperm. }
  destruct (candidate_emails authors) as [|w ws] eqn:E; [done|].
  cbn [head default].
  assert (PyStr.contains "@" w = true) as Hw.
  { assert (In w (candidate_emails authors)) as Hin by (rewrite E; by left).
    unfold candidate_emails in Hin. apply in_flat_map in Hin as (a & _ & Hin).
    destruct (affiliation_of a); [|done]. by apply filter_In in Hin as [_ Hw]. }
  by rewrite (at_word_truthy _ Hw).
Qed.

(** C3: for every author of a parsed record the two classifications are
    independent tests on the affiliation string.  After the loop over the
    Author nodes the non-academic list holds the names, in document order,
    of exactly the authors whose affiliation has none of University,
    Institute, College, Research, Academy as a substring, and an author's
    affiliation is in the company set exactly when it has one of Pharma,
    Biotech, Pharmaceutical, Biotechnology as a substring; an author whose
    affiliation has both "University" and "Pharma" is left out of the list
    while the affiliation is in the set.  The two fields of the record are
    made of this list and this set.  In each round of the loop the author is
    appended, and the affiliation added, under these same conditions. *)
Theorem C3_classifications_independent ord root :
  (forall a, a ∈ ET.findall_desc "Author" root -> affiliation_of a <> None) ->
  exists st rec,
    for_authors loop_init (ET.findall_desc "Author" root) = Ok st /\
    parse_paper_details ord root = Ok rec /\
    non_academic_authors st =
      List.map author_name_of (listed_authors (ET.findall_desc "Author" root)) /\
    (forall a s,
       a ∈ ET.findall_desc "Author" root -> affiliation_of a = Some s ->
       (a ∈ listed_authors (ET.findall_desc "Author" root) <->
        forall k, k ∈ ["University"; "Institute"; "College"; "Research"; "Academy"] ->
                  ~ PyStr.substring_of k s) /\
       (s ∈ company_affiliations st <->
        exists k, k ∈ ["Pharma"; "Biotech"; "Pharmaceutical"; "Biotechnology"] /\
                  PyStr.substring_of k s) /\
       (PyStr.substring_of "University" s -> PyStr.substring_of "Pharma" s ->
        (a ∉ listed_authors (ET.findall_desc "Author" root)) /\
        s ∈ company_affiliations st)) /\
    (forall c, c ∈ company_affiliations st ->
       exists a, a ∈ ET.findall_desc "Author" root /\ affiliation_of a = Some c) /\
    assoc "Non-academic Author(s)" rec =
      Some (Some (match non_academic_authors st with
                  | [] => "None"
                  | _ :: _ => PyStr.join "; " (non_academic_authors st)
                  end)) /\
    (exists cs,
       cs ≡ₚ elements (company_affiliations st) /\
       assoc "Company Affiliation(s)" rec =
         Some (Some (match cs with [] => "None" | _ :: _ => PyStr.join "; " cs end))) /\
    (forall st0 author s,
       affiliation_of author = Some s ->
       exists st1,
         author_step st0 author = Ok st1 /\
         ((forall k, k ∈ ["University"; "Institute"; "College"; "Research"; "Academy"] ->
                     ~ PyStr.substring_of k s) ->
          non_academic_authors st1 = non_academic_authors st0 ++ [author_name_of author]) /\
         ((exists k, k ∈ ["University"; "Institute"; "College"; "Research"; "Academy"] /\
                     PyStr.substring_of k s) ->
          non_academic_authors st1 = non_academic_authors st0) /\
         ((exists k, k ∈ ["Pharma"; "Biotech"; "Pharmaceutical"; "Biotechnology"] /\
                     PyStr.substring_of k s) ->
          company_affiliations st1 = {[s]} ∪ company_affiliations st0) /\
         ((forall k, k ∈ ["Pharma"; "Biotech"; "Pharmaceutical"; "Biotechnology"] ->
                     ~ PyStr.substring_of k s) ->
          company_affiliations st1 = company_affiliations st0) /\
         (PyStr.substring_of "University" s -> PyStr.substring_of "Pharma" s ->
          non_academic_authors st1 = non_academic_authors st0 /\
          s ∈ company_affiliations st1)).
Proof.
  intros Hall.
  change ["University"; "Institute"; "College"; "Research"; "Academy"]
    with academic_keywords.
  change ["Pharma"; "Biotech"; "Pharmaceutical"; "Biotechnology"]
    with company_keywords.
  set (authors := ET.findall_desc "Author" root) in *.
  destruct (for_authors_state loop_init authors Hall) as (st & Hrun & Hnames & Hset).
  cbn [loop_init non_academic_authors company_affiliations app] in Hnames, Hset.
  rewrite (right_id_L ∅ (∪)) in Hset.
  assert (forall a s, a ∈ authors -> affiliation_of a = Some s ->
            (a ∈ listed_authors authors <->
             forall k, k ∈ academic_keywords -> ~ PyStr.substring_of k s)) as Hlisted.
  { intros a s Ha Hs. unfold listed_authors.
    rewrite list_elem_of_In, filter_In, <- list_elem_of_In, Hs, negb_true_iff.
    unfold has_keyword. rewrite existsb_contains_false. tauto. }
  assert (forall a s, a ∈ authors -> affiliation_of a = Some s ->
            (s ∈ company_affiliations st <->
             exists k, k ∈ company_keywords /\ PyStr.substring_of k s)) as Hcompany.
  { intros a s Ha Hs. rewrite Hset, elem_of_list_to_set.
    unfold company_strings. rewrite list_elem_of_omap, <- existsb_contains_true.
    fold (has_keyword company_keywords s). split.
    - intros (a' & _ & Hsome). destruct (affiliation_of a') as [s'|]; [|done].
      destruct (has_keyword company_keywords s') eqn:E; [|done]. congruence.
    - intros Hk. exists a. split; [done|]. by rewrite Hs, Hk. }
  exists st. eexists. split; [exact Hrun|].
  split; [by apply parse_paper_details_str|].
  split; [exact Hnames|]. split; [|split; [|split; [|split]]].
  - intros a s Ha Hs. split; [by apply Hlisted|]. split; [by apply (Hcompany a)|].
    intros Hu Hp. split.
    + rewrite (Hlisted a s Ha Hs). intros Hno. apply (Hno "University"); [|done].
      unfold academic_keywords. apply list_elem_of_In. by left.
    + apply (Hcompany a s Ha Hs). exists "Pharma". split; [|done].
      unfold company_keywords. apply list_elem_of_In. by left.
  - intros c. rewrite Hset, elem_of_list_to_set. unfold company_strings.
    rewrite list_elem_of_omap. intros (a & Ha & Hsome). exists a. split; [done|].
    destruct (affiliation_of a) as [s|]; [|done].
    destruct (has_keyword company_keywords s); congruence.
  - cbn [assoc]. rewrite Hnames. reflexivity.
  - exists (set_iter ord (company_affiliations st)).
    split; [apply set_iter_perm|]. rewrite Hset. reflexivity.
  - intros st0 author s Ha. eexists. split; [exact (author_step_str st0 author s Ha)|].
    cbn [non_academic_authors company_affiliations].
    repeat split.
    + intros H. apply existsb_contains_false in H. by rewrite H.
    + intros H. apply existsb_contains_true in H. by rewrite H.
    + intros H. apply existsb_contains_true in H. by rewrite H.
    + intros H. apply existsb_contains_false in H. by rewrite H.
    + assert (existsb (fun k => PyStr.contains k s) academic_keywords = true) as ->; [|done].
      apply existsb_contains_true. exists "University". split; [|done].
      unfold academic_keywords. apply list_elem_of_In. by left.
    + assert (existsb (fun k => PyStr.contains k s) company_keywords = true) as ->.
      { apply existsb_contains_true. exists "Pharma". split; [|done].
        unfold company_keywords. apply list_elem_of_In. by left. }
      apply elem_of_union_l, elem_of_singleton. reflexivity.
Qed.

(** ** The fields of a record *)

(** C2 (amended): a record produced by parse_paper_details has exactly the
    six keys PubmedID, Title, Publication Date, Non-academic Author(s),
    Company Affiliation(s), Corresponding Author Email, in that order; the
    last four values are always strings; the identifier and the title are
    the string "N/A" when the record has no PMID or ArticleTitle node, and
    the node's text when the node has text. *)
Theorem C2_record_fields ord root rec :
  parse_paper_details ord root = Ok rec ->
  List.map fst rec =
    [ "PubmedID"; "Title"; "Publication Date"; "Non-academic Author(s)";
      "Company Affiliation(s)"; "Corresponding Author Email" ] /\
  (forall k, k ∈ [ "Publication Date"; "Non-academic Author(s)";
                   "Company Affiliation(s)"; "Corresponding Author Email" ] ->
             exists s, assoc k rec = Some (Some s)) /\
  (ET.find_desc "PMID" root = None -> assoc "PubmedID" rec = Some (Some "N/A")) /\
  (forall e s, ET.find_desc "PMID" root = Some e -> text e = Some s ->
               assoc "PubmedID" rec = Some (Some s)) /\
  (ET.find_desc "ArticleTitle" root = None -> assoc "Title" rec = Some (Some "N/A")) /\
  (forall e s, ET.find_desc "ArticleTitle" root = Some e -> text e = Some s ->
               assoc "Title" rec = Some (Some s)).
Proof.
  unfold parse_paper_details.
  destruct (for_authors loop_init (ET.findall_desc "Author" root)) as [st|];
    cbn [rbind]; [|done].
  intros [= <-]. split; [reflexivity|]. split; [|split; [|split; [|split]]].
  - intros k Hk.
    repeat (apply elem_of_cons in Hk as [->|Hk]; [by eexists|]).
    by apply not_elem_of_nil in Hk.
  - intros ->. reflexivity.
  - intros e s -> Hs. cbn. by rewrite Hs.
  - intros ->. reflexivity.
  - intros e s -> Hs. cbn. by rewrite Hs.
Qed.

(** C2 as stated fails: the record parsed from an article whose title
    starts with markup has six fields, not five, and its title is None. *)
Lemma C2_counterexample :
  parse_paper_details Sample.order Sample.markup_title = Ok Sample.markup_title_record /\
  length Sample.markup_title_record = 6 /\
  assoc "Title" Sample.markup_title_record = Some None.
Proof. repeat split. Qed.

(** ** The publication date *)

Lemma publication_date_absent root :
  ET.find_desc "DateCompleted" root = None ->
  publication_date_of root = "N/A".
Proof. unfold publication_date_of. by intros ->. Qed.

(** The date is the specification's whenever the node has a child. *)
Lemma publication_date_with_child root node :
  ET.find_desc "DateCompleted" root = Some node ->
  children node <> [] ->
  publication_date_of root = publication_date_spec root.
Proof.
  unfold publication_date_of, publication_date_spec, ET.truthy. intros -> H.
  by destruct (children node).
Qed.

(** A node without children is taken for no node. *)
Lemma publication_date_childless root node :
  ET.find_desc "DateCompleted" root = Some node ->
  children node = [] ->
  publication_date_of root = "N/A".
Proof. unfold publication_date_of, ET.truthy. by intros -> ->. Qed.

Example publication_date_without_day :
  publication_date_of Sample.date_without_day = "2020-05-N/A".
Proof. reflexivity. Qed.

(** C1: at a record whose DateCompleted node has no child, the node is
    found, the specification's date is "N/A-N/A-N/A", and the code's date,
    also in the parsed record, is "N/A". *)
Theorem C1_childless_date_completed :
  ET.find_desc "DateCompleted" Sample.childless_date =
    Some (Elem "DateCompleted" None []) /\
  publication_date_spec Sample.childless_date = "N/A-N/A-N/A" /\
  publication_date_of Sample.childless_date = "N/A" /\
  parse_paper_details Sample.order Sample.childless_date =
    Ok [ ("PubmedID", Some "N/A");
         ("Title", Some "N/A");
         ("Publication Date", Some "N/A");
         ("Non-academic Author(s)", Some "None");
         ("Company Affiliation(s)", Some "None");
         ("Corresponding Author Email", Some "None") ].
Proof. repeat split. Qed.

(** ** The worker pool *)

Section PoolProofs.
Context {A B : Type} (rebuild : Exception -> Exception)
        (func : A -> result B) (xs : list A) (c : nat).
Hypothesis c_pos : 0 < c.

Local Abbreviation n := (length xs).
Local Abbreviation k := (Pool.number_of_tasks c (length xs)).
Local Abbreviation filled := (slots_filled func xs c).
Local Abbreviation inv := (collect_inv rebuild func xs c).

Lemma div_bounds j i : j / c = i <-> i * c <= j < i * c + c.
Proof.
  pose proof (Nat.div_mod_eq j c) as Hj.
  pose proof (Nat.mod_upper_bound j c ltac:(lia)) as Hm.
  split.
  - intros <-. nia.
  - intros [H1 H2]. symmetry.
    apply (Nat.div_unique j c i (j - i * c)); lia.
Qed.

Lemma task_lt i : i < k <-> i * c < n.
Proof.
  unfold Pool.number_of_tasks.
  pose proof (Nat.div_mod_eq n c) as Hn.
  pose proof (Nat.mod_upper_bound n c ltac:(lia)) as Hm.
  destruct (Nat.eqb (n mod c) 0) eqn:E.
  - apply Nat.eqb_eq in E. split; nia.
  - apply Nat.eqb_neq in E. split; nia.
Qed.

Lemma chunk_length i : length (Pool.chunk c i xs) = min c (n - i * c).
Proof. unfold Pool.chunk. by rewrite length_take, length_drop. Qed.

Lemma chunk_lookup i t :
  t < c -> Pool.chunk c i xs !! t = xs !! (i * c + t).
Proof.
  intros Ht. unfold Pool.chunk. by rewrite lookup_take_lt, lookup_drop.
Qed.

Lemma chunk_elem_of i x : x ∈ Pool.chunk c i xs -> x ∈ xs.
Proof.
  unfold Pool.chunk. intros H.
  apply list_elem_of_lookup in H as [t Ht].
  apply lookup_take_Some in Ht as [Ht _]. rewrite lookup_drop in Ht.
  by apply list_elem_of_lookup_2 in Ht.
Qed.

Lemma mapstar_Ok l ys :
  Pool.mapstar func l = Ok ys ->
  length ys = length l /\
  forall t x, l !! t = Some x -> exists y, ys !! t = Some y /\ func x = Ok y.
Proof.
  revert ys. induction l as [|x l IH]; intros ys; simpl.
  - intros [= <-]. split; [done|]. intros t x Hx. by destruct t.
  - destruct (func x) as [y|] eqn:Ex; simpl; [|done].
    destruct (Pool.mapstar func l) as [ys'|]; simpl; [|done].
    intros [= <-]. destruct (IH ys' eq_refl) as [Hl Hn]. split; [simpl; lia|].
    intros [|t] x' Hx'; simpl in *; [|by apply Hn].
    injection Hx' as <-. by exists y.
Qed.

Lemma mapstar_Raise l e :
  Pool.mapstar func l = Raise e -> exists x, x ∈ l /\ func x = Raise e.
Proof.
  induction l as [|x l IH]; simpl; [done|].
  destruct (func x) as [y|e'] eqn:Ex; simpl.
  - destruct (Pool.mapstar func l) as [ys'|e']; simpl; [done|].
    intros [= ->]. destruct (IH eq_refl) as (x' & Hx' & He).
    exists x'. split; [by right | done].
  - intros [= ->]. exists x. split; [left | done].
Qed.

Lemma inv_init : inv [] (Pool.new_result c n).
Proof.
  split; [simpl; lia|]. split; [|done]. intros _. split.
  - simpl. apply length_replicate.
  - intros j x Hx. split; [intros H; by apply not_elem_of_nil in H|].
    intros _. simpl. apply lookup_replicate_2. by apply lookup_lt_Some in Hx.
Qed.

Lemma lookup_map_Some (ys : list B) t :
  List.map Some ys !! t = Some <$> ys !! t.
Proof. revert t. induction ys as [|y ys IH]; intros [|t]; simpl; auto. Qed.

Lemma slice_assign_length i (new v : list (option B)) :
  length v = n -> i * c < n -> length new = min c (n - i * c) ->
  length (Pool.slice_assign (i * c) ((i + 1) * c) new v) = n.
Proof.
  intros Hv Hi Hnew. unfold Pool.slice_assign.
  rewrite !length_app, length_take, length_drop. lia.
Qed.

Lemma slice_assign_inside i (new v : list (option B)) j :
  length v = n -> length new = min c (n - i * c) ->
  i * c <= j < i * c + c -> j < n ->
  Pool.slice_assign (i * c) ((i + 1) * c) new v !! j = new !! (j - i * c).
Proof.
  intros Hv Hnew Hj Hn. unfold Pool.slice_assign.
  rewrite lookup_app_r; rewrite length_take; [|lia].
  replace (min (i * c) (length v)) with (i * c) by lia.
  apply lookup_app_l. lia.
Qed.

Lemma slice_assign_outside i (new v : list (option B)) j :
  length v = n -> length new = min c (n - i * c) ->
  i * c < n -> ~ (i * c <= j < i * c + c) -> j < n ->
  Pool.slice_assign (i * c) ((i + 1) * c) new v !! j = v !! j.
Proof.
  intros Hv Hnew Hi Hj Hn. unfold Pool.slice_assign.
  destruct (decide (j < i * c)) as [Hlt|Hge].
  - rewrite lookup_app_l by (rewrite length_take; lia).
    by apply lookup_take_lt.
  - rewrite lookup_app_r; rewrite length_take; [|lia].
    rewrite lookup_app_r by lia. rewrite lookup_drop. f_equal. lia.
Qed.

Lemma inv_step D m i :
  inv D m -> i ∉ D -> i < k -> length D < k ->
  inv (i :: D) (Pool.set_result rebuild c i (Pool.mapstar func (Pool.chunk c i xs)) m).
Proof.
  intros (Hleft & Hok & Hbad) HiD Hik HD.
  pose proof (proj1 (task_lt i) Hik) as Hic.
  unfold Pool.set_result.
  destruct (Pool.mapstar func (Pool.chunk c i xs)) as [ys|e] eqn:Erun;
    destruct (Pool.mr_success m) eqn:Es; unfold inv;
    cbn [Pool.mr_number_left Pool.mr_success Pool.mr_value Pool.mr_error length].
  - split; [lia|]. split; [intros _ | done].
    destruct (Hok eq_refl) as [Hlen Hslots].
    apply mapstar_Ok in Erun as [Hys Hres].
    assert (length (List.map Some ys) = min c (n - i * c)) as Hnew
      by (by rewrite length_map, Hys, chunk_length).
    split; [by apply slice_assign_length|].
    intros j x Hx. pose proof (lookup_lt_Some _ _ _ Hx) as Hjn.
    destruct (decide (j / c = i)) as [Hji|Hji].
    + pose proof (proj1 (div_bounds j i) Hji) as Hb. split.
      * intros _. rewrite slice_assign_inside by done.
        destruct (Hres (j - i * c) x) as (y & Hy & Hf).
        { rewrite chunk_lookup by lia. rewrite <- Hx. f_equal. lia. }
        exists y. split; [done|]. by rewrite lookup_map_Some, Hy.
      * intros Hnot. destruct Hnot. rewrite Hji. left.
    + assert (~ (i * c <= j < i * c + c)) as Hb
        by (intros Hb; by apply div_bounds in Hb).
      rewrite slice_assign_outside by done.
      destruct (Hslots j x Hx) as [H1 H2]. split.
      * intros Hin. apply elem_of_cons in Hin as [?|Hin]; [done | by apply H1].
      * intros Hnot. apply H2. intros Hin. apply Hnot. by right.
  - split; [lia|]. split; [done | intros _; by apply Hbad].
  - split; [lia|]. split; [done | intros _].
    apply mapstar_Raise in Erun as (x & Hx & He).
    exists e, x. split; [done|]. split; [by eapply chunk_elem_of | done].
  - split; [lia|]. split; [done | intros _; by apply Hbad].
Qed.

Lemma inv_collect rest : forall D m,
  inv D m -> NoDup (D ++ rest) -> (forall i, i ∈ D ++ rest -> i < k) ->
  length (D ++ rest) = k ->
  exists D', D' ≡ₚ D ++ rest /\ inv D' (Pool.collect rebuild c func xs rest m).
Proof.
  induction rest as [|i rest IH]; intros D m Hinv Hnd Hlt Hlen.
  - exists D. by rewrite app_nil_r.
  - assert ((i :: D) ++ rest ≡ₚ D ++ i :: rest) as Hperm
      by (simpl; apply Permutation_middle).
    destruct (IH (i :: D)
                (Pool.set_result rebuild c i (Pool.mapstar func (Pool.chunk c i xs)) m))
      as (D' & HD' & Hinv').
    + apply inv_step; [done | | |].
      * apply NoDup_app in Hnd as (_ & Hnd & _). intros Hin.
        apply (Hnd i Hin). left.
      * apply Hlt. apply elem_of_app. right. left.
      * rewrite length_app in Hlen. simpl in Hlen. lia.
    + by rewrite Hperm.
    + intros j Hj. apply Hlt. by rewrite <- Hperm.
    + by rewrite Hperm.
    + exists D'. split; [by rewrite HD', Hperm | done].
Qed.

Lemma collect_all sched :
  sched ≡ₚ seq 0 k ->
  exists D, (forall i, i ∈ D <-> i < k) /\
            Pool.mr_number_left (Pool.collect rebuild c func xs sched (Pool.new_result c n)) = 0 /\
            inv D (Pool.collect rebuild c func xs sched (Pool.new_result c n)).
Proof.
  intros Hperm.
  destruct (inv_collect sched [] (Pool.new_result c n)) as (D & HD & Hinv).
  - apply inv_init.
  - simpl. rewrite Hperm. apply NoDup_seq.
  - simpl. intros i Hi. rewrite Hperm in Hi. apply elem_of_seq in Hi. lia.
  - simpl. by rewrite Hperm, length_seq.
  - simpl in HD. exists D. split; [|split; [|done]].
    + intros i. rewrite HD, Hperm, elem_of_seq. lia.
    + destruct Hinv as [Hleft _].
      pose proof (Permutation_length HD) as H1.
      pose proof (Permutation_length Hperm) as H2.
      rewrite length_seq in H2. lia.
Qed.

Lemma filled_all D v :
  (forall i, i ∈ D <-> i < k) -> filled D v ->
  exists ys, mapM id v = Some ys /\ Forall2 (fun x y => func x = Ok y) xs ys.
Proof.
  intros HD [Hlen Hslots].
  assert (forall j x, xs !! j = Some x ->
            exists y, func x = Ok y /\ v !! j = Some (Some y)) as Hall.
  { intros j x Hx. apply (Hslots j x Hx). apply HD, task_lt.
    pose proof (lookup_lt_Some _ _ _ Hx).
    pose proof (proj1 (div_bounds j (j / c)) eq_refl). lia. }
  assert (is_Some (mapM id v)) as [ys Hys].
  { apply mapM_is_Some, Forall_lookup. intros j o Ho.
    destruct (lookup_lt_is_Some_2 xs j) as [x Hx];
      [apply lookup_lt_Some in Ho; lia|].
    destruct (Hall j x Hx) as (y & _ & Hy). rewrite Ho in Hy.
    injection Hy as ->. by eexists. }
  exists ys. split; [done|]. apply mapM_Some in Hys.
  apply Forall2_same_length_lookup. split.
  - apply Forall2_length in Hys. lia.
  - intros j x y Hx Hy. destruct (Hall j x Hx) as (y' & Hf & Hv).
    pose proof (Forall2_lookup_lr _ _ _ _ _ _ Hys Hv Hy) as Heq.
    simpl in Heq. by injection Heq as <-.
Qed.

End PoolProofs.

Lemma chunksize_pos p n : n <> 0 -> 0 < Pool.chunksize p n.
Proof.
  intros Hn. unfold Pool.chunksize.
  destruct (Nat.eqb n 0) eqn:E; [by apply Nat.eqb_eq in E|].
  destruct (Nat.eqb (n mod (p * 4)) 0) eqn:Em;
    [|generalize (n / (p * 4)); intros; lia].
  apply Nat.eqb_eq in Em. pose proof (Nat.div_mod_eq n (p * 4)) as Hd.
  rewrite Em in Hd. destruct (n / (p * 4)) eqn:Eq; [|simpl; lia].
  rewrite Nat.mul_0_r in Hd. simpl in Hd. lia.
Qed.

(** A call of [map] returns once every task has come back, whatever the
    order: with the results in the order of the items when every call of
    [func] returned, and with an exception of one of the calls otherwise. *)
Lemma pool_map_returns {A B} p rebuild sched (func : A -> result B) xs :
  sched ≡ₚ seq 0 (Pool.number_of_tasks (Pool.chunksize p (length xs)) (length xs)) ->
  exists r,
    Pool.map p rebuild sched func xs = Some r /\
    match r with
    | Ok ys => Forall2 (fun x y => func x = Ok y) xs ys
    | Raise e => exists e0 x, e = rebuild e0 /\ x ∈ xs /\ func x = Raise e0
    end.
Proof.
  intros Hperm. unfold Pool.map.
  destruct (Nat.eqb (Pool.chunksize p (length xs)) 0) eqn:Ec.
  - exists (Ok []). split; [done|]. destruct xs as [|x xs]; [constructor|].
    apply Nat.eqb_eq in Ec.
    pose proof (chunksize_pos p (length (x :: xs)) ltac:(done)). lia.
  - apply Nat.eqb_neq in Ec.
    assert (0 < Pool.chunksize p (length xs)) as Hc by lia.
    destruct (collect_all rebuild func xs _ Hc sched Hperm)
      as (D & HD & Hleft & _ & Hok & Hbad).
    rewrite Hleft. simpl.
    destruct (Pool.mr_success _) eqn:Es.
    + destruct (filled_all func xs _ Hc D _ HD (Hok eq_refl))
        as (ys & -> & Hys).
      by exists (Ok ys).
    + destruct (Hbad eq_refl) as (e & x & -> & Hx & He).
      exists (Raise (rebuild e)). split; [done|]. by exists e, x.
Qed.

Lemma Forall2_Ok_lookup {A B} (func : A -> result B) xs ys :
  Forall2 (fun x y => func x = Ok y) xs ys ->
  length ys = length xs /\
  forall i x, xs !! i = Some x -> exists y, ys !! i = Some y /\ func x = Ok y.
Proof.
  intros H. split; [symmetry; by eapply Forall2_length|].
  intros i x Hx. destruct (Forall2_lookup_l _ _ _ _ _ H Hx) as (y & Hy & Hf).
  by exists y.
Qed.

(** ** The coordinator *)

Lemma fetch_details_concurrently_list sch ids fetch w :
  exists r,
    Pool.map 2 (rebuilt sch)
      (completion_order sch
         (Pool.number_of_tasks (Pool.chunksize 2 (length ids)) (length ids)))
      fetch ids = Some r /\
    fetch_details_concurrently sch (JList ids) fetch w =
      lift r (logged w INFO ("Using multiprocessing to fetch details for "
                             +:+ pretty (length ids) +:+ " PubMed IDs")) /\
    match r with
    | Ok ys => Forall2 (fun x y => fetch x = Ok y) ids ys
    | Raise e => exists e0 x, e = rebuilt sch e0 /\ x ∈ ids /\ fetch x = Raise e0
    end.
Proof.
  destruct (pool_map_returns 2 (rebuilt sch) _ fetch ids (completion_order_perm sch _))
    as (r & Hr & Hspec).
  exists r. split; [done|]. split; [|done].
  unfold fetch_details_concurrently, bind. cbn [py_len lift logging py_items].
  by rewrite Hr.
Qed.

(** C8: whatever the order in which the workers finish, when every call of
    the fetch+parse function returns, the coordinator returns a list as
    long as the list of identifiers whose i-th element is the output for
    the i-th identifier; for the identifiers "1", "2", "3" and the stub that
    gives record N the title "T"+N the output is T1, T2, T3 in that order. *)
Theorem C8_results_follow_input_order sch ids fetch w :
  (forall id, id ∈ ids -> exists r, fetch id = Ok r) ->
  (exists results w',
     fetch_details_concurrently sch (JList ids) fetch w = Returns results w' /\
     length results = length ids /\
     forall i id, ids !! i = Some id ->
       exists r, results !! i = Some r /\ fetch id = Ok r) /\
  (exists w',
     fetch_details_concurrently sch (JList [JStr "1"; JStr "2"; JStr "3"])
       Sample.title_stub w =
     Returns [ [("Title", Some "T1")]; [("Title", Some "T2")];
               [("Title", Some "T3")] ] w').
Proof.
  intros Hret. split.
  - destruct (fetch_details_concurrently_list sch ids fetch w)
      as ([ys|e] & _ & -> & Hspec).
    + apply Forall2_Ok_lookup in Hspec as [Hlen Hlook].
      eexists _, _. split; [reflexivity|]. by split.
    + destruct Hspec as (e0 & x & _ & Hx & He). destruct (Hret x Hx) as [r Hr].
      congruence.
  - destruct (fetch_details_concurrently_list sch
                [JStr "1"; JStr "2"; JStr "3"] Sample.title_stub w)
      as ([ys|e] & _ & -> & Hspec).
    + eexists. cbn [lift]. f_equal.
      repeat (apply Forall2_cons_inv_l in Hspec as (? & ? & [= <-] & Hspec & ->)).
      by apply Forall2_nil_inv_l in Hspec as ->.
    + destruct Hspec as (e0 & x & _ & Hx & He).
      repeat (apply elem_of_cons in Hx as [->|Hx]; [discriminate|]).
      by apply not_elem_of_nil in Hx.
Qed.

(** ** The search client *)

Lemma fetch_paper_ids_data env search_term max_results w response data :
  requests_get env (BASE_URL +:+ "/esearch.fcgi")
    (esearch_params search_term max_results) = Ok response ->
  raise_for_status response = Ok tt ->
  json_result response = Ok data ->
  fetch_paper_ids env search_term max_results w =
    lift (let* inner := py_get data "esearchresult" (JDict []) in
          py_get inner "idlist" (JList []))
      (esearch_logged w search_term max_results).
Proof.
  intros Hget Hstatus Hjson.
  unfold fetch_paper_ids, bind, lift, logging, esearch_params in *.
  rewrite Hget. cbv beta iota. rewrite Hstatus. cbv beta iota.
  rewrite Hjson. cbv beta iota.
  unfold esearch_logged, logged.
  destruct (py_get data "esearchresult" (JDict [])) as [inner|e]; [|done].
  cbn [rbind]. by destruct (py_get inner "idlist" (JList [])).
Qed.

(** C5 (amended): when the search request is answered with a success status
    and a JSON body, fetch_paper_ids returns the value found at
    esearchresult/idlist as it is, elements and order unchanged and nothing
    cut off, so that the result is as long as the service's list and within
    the requested maximum exactly when the service's list is; when the body
    is a dict without esearchresult, or esearchresult is a dict without
    idlist, it returns the empty list. *)
Theorem C5_idlist_returned_as_is env search_term max_results w response data :
  requests_get env (BASE_URL +:+ "/esearch.fcgi")
    [ ("db", JStr "pubmed"); ("term", JStr search_term);
      ("retmax", JNum max_results); ("retmode", JStr "json") ] = Ok response ->
  raise_for_status response = Ok tt ->
  json_result response = Ok data ->
  (forall ids, idlist_at_path data = Some ids ->
     fetch_paper_ids env search_term max_results w =
       Returns ids (esearch_logged w search_term max_results)) /\
  (forall ids, idlist_at_path data = Some (JList ids) ->
     exists out w',
       fetch_paper_ids env search_term max_results w = Returns (JList out) w' /\
       out = ids /\
       (Z.of_nat (length out) <= max_results <->
        Z.of_nat (length ids) <= max_results)%Z) /\
  (forall top, data = JDict top -> assoc "esearchresult" top = None ->
     fetch_paper_ids env search_term max_results w =
       Returns (JList []) (esearch_logged w search_term max_results)) /\
  (forall top inner, data = JDict top ->
     assoc "esearchresult" top = Some (JDict inner) -> assoc "idlist" inner = None ->
     fetch_paper_ids env search_term max_results w =
       Returns (JList []) (esearch_logged w search_term max_results)).
Proof.
  intros Hget Hstatus Hjson.
  rewrite (fetch_paper_ids_data _ _ _ w _ _ Hget Hstatus Hjson).
  assert (forall ids, idlist_at_path data = Some ids ->
            (let* inner := py_get data "esearchresult" (JDict []) in
             py_get inner "idlist" (JList [])) = Ok ids) as Hpath.
  { intros ids. unfold idlist_at_path. destruct data as [| | | | |top]; try done.
    cbn [py_get rbind]. destruct (assoc "esearchresult" top) as [[| | | | |inner]|];
      try done.
    simpl. by intros ->. }
  split; [|split; [|split]].
  - intros ids Hids. by rewrite (Hpath ids Hids).
  - intros ids Hids. rewrite (Hpath _ Hids). by eexists _, _.
  - intros top -> Hnone. cbn [py_get rbind]. by rewrite Hnone.
  - intros top inner -> Hsome Hnone. cbn [py_get rbind]. rewrite Hsome.
    simpl. by rewrite Hnone.
Qed.

(** C5 as stated fails: asked for at most one result, and answered with
    three identifiers, fetch_paper_ids returns the three of them. *)
Lemma C5_counterexample :
  fetch_paper_ids Sample.three_ids "cancer" 1 Sample.empty_world =
    Returns (JList [JStr "1"; JStr "2"; JStr "3"])
      (esearch_logged Sample.empty_world "cancer" 1) /\
  (1 < Z.of_nat (length [JStr "1"; JStr "2"; JStr "3"]))%Z.
Proof. split; [reflexivity | simpl; lia]. Qed.

(** ** The writer *)

Lemma add_columns_fixed r :
  List.map fst r = fixed_fields ->
  add_columns [] r = fixed_fields /\ add_columns fixed_fields r = fixed_fields.
Proof. unfold add_columns. intros ->. split; reflexivity. Qed.

Lemma frame_columns_fixed data cols :
  Forall (fun r => List.map fst r = fixed_fields) data ->
  cols = fixed_fields \/ (cols = [] /\ data <> []) ->
  fold_left add_columns data cols = fixed_fields.
Proof.
  intros Hall. revert cols. induction Hall as [|r data Hr _ IH]; intros cols Hc.
  - by destruct Hc as [->|[_ ?]].
  - simpl. apply IH. left. destruct (add_columns_fixed r Hr) as [H1 H2].
    by destruct Hc as [->|[-> _]].
Qed.

Lemma csv_text_app rows1 rows2 :
  csv_text (rows1 ++ rows2) = csv_text rows1 +:+ csv_text rows2.
Proof.
  induction rows1 as [|r rows1 IH]; [done|].
  cbn [app csv_text]. by rewrite IH, append_assoc.
Qed.

(** The writer looks at the files only. *)
Lemma open_for_append_files w w' filename :
  files w' = files w -> open_for_append w' filename = open_for_append w filename.
Proof. intros H. unfold open_for_append, is_dir. by rewrite H. Qed.

Lemma write_csv_new filename data w :
  files w !! filename = None ->
  open_for_append w filename = Ok "" ->
  write_csv filename data w =
    Returns tt {| files := <[filename :=
                     RegularFile (csv_line (columns (make_frame data))
                                  +:+ csv_text (csv_rows data))]> (files w);
                  stdout := stdout w;
                  log := log w ++ [(INFO, "Writing data to CSV file: " +:+ filename)] |}.
Proof.
  intros Hnew Hopen. unfold write_csv, bind, to_csv, file_exists.
  cbn [logging files stdout log].
  rewrite Hnew, (open_for_append_files w) by done. by rewrite Hopen.
Qed.

Lemma write_csv_append filename data w old :
  files w !! filename = Some (RegularFile old) ->
  write_csv filename data w =
    Returns tt {| files := <[filename := RegularFile (old +:+ csv_text (csv_rows data))]>
                             (files w);
                  stdout := stdout w;
                  log := log w ++ [(INFO, "Writing data to CSV file: " +:+ filename)] |}.
Proof.
  intros Hold. unfold write_csv, bind, to_csv, file_exists, open_for_append.
  cbn [logging files stdout log]. by rewrite Hold.
Qed.


(** With a first call that has a record to write, the file gets one header
    line, the six field names, followed by the lines of both calls. *)
Lemma write_csv_twice filename data1 data2 w :
  files w !! filename = None ->
  open_for_append w filename = Ok "" ->
  data1 <> [] ->
  Forall (fun r => List.map fst r = fixed_fields) data1 ->
  exists w1 w2,
    write_csv filename data1 w = Returns tt w1 /\
    write_csv filename data2 w1 = Returns tt w2 /\
    files w2 !! filename =
      Some (RegularFile (csv_line fixed_fields
                         +:+ csv_text (csv_rows data1 ++ csv_rows data2))).
Proof.
  intros Hnew Hopen Hne Hall. eexists _, _.
  split; [by apply write_csv_new|]. split.
  - eapply write_csv_append. cbn [files]. apply lookup_insert_eq.
  - cbn [files]. rewrite lookup_insert_eq. do 2 f_equal.
    cbn [make_frame columns].
    rewrite frame_columns_fixed, csv_text_app, append_assoc; [done | done | by right].
Qed.

(** After a first call without any record the file starts with an empty
    line, and no later call writes the field names. *)
Lemma write_csv_after_empty filename data w :
  files w !! filename = None ->
  open_for_append w filename = Ok "" ->
  exists w1 w2,
    write_csv filename [] w = Returns tt w1 /\
    write_csv filename data w1 = Returns tt w2 /\
    files w2 !! filename = Some (RegularFile (newline +:+ csv_text (csv_rows data))).
Proof.
  intros Hnew Hopen. eexists _, _.
  split; [by apply write_csv_new|]. split.
  - eapply write_csv_append. cbn [files]. apply lookup_insert_eq.
  - cbn [files]. by rewrite lookup_insert_eq.
Qed.

(** C6: written first with no record and then with one, a new file starts
    with an empty line, which names no field, and the record's line follows
    it: the second call finds the file and writes no header. *)
Theorem C6_no_header_after_empty_write :
  write_csv "results.csv" [] Sample.empty_world =
    Returns tt
      {| files := {[ "results.csv" := RegularFile newline ]};
         stdout := [];
         log := [(INFO, "Writing data to CSV file: results.csv")] |} /\
  (do _ <- write_csv "results.csv" [];
   write_csv "results.csv" [Sample.record]) Sample.empty_world =
    Returns tt
      {| files := {[ "results.csv" :=
                     RegularFile
                       (newline
                        +:+ "123,A study,2020-05-17,Jane Doe,None,jane@acme.com"
                        +:+ newline) ]};
         stdout := [];
         log := [ (INFO, "Writing data to CSV file: results.csv");
                  (INFO, "Writing data to CSV file: results.csv") ] |}.
Proof. split; reflexivity. Qed.

(** ** The entry point *)

Lemma quiet_bind {A B} (c : M A) (k : A -> M B) :
  quiet c -> (forall a, quiet (k a)) -> quiet (bind c k).
Proof.
  intros Hc Hk w. unfold bind. specialize (Hc w).
  destruct (c w) as [a w1|e w1|]; [|done|done].
  specialize (Hk a w1). destruct (k a w1); [|  |done];
    destruct Hc, Hk; split; congruence.
Qed.

Lemma quiet_lift {A} (r : result A) : quiet (lift r).
Proof. intros w. by destruct r. Qed.

Lemma quiet_logging level msg : quiet (logging level msg).
Proof. by intros w. Qed.

Lemma quiet_fetch_paper_ids env search_term max_results :
  quiet (fetch_paper_ids env search_term max_results).
Proof.
  unfold fetch_paper_ids.
  repeat (apply quiet_bind; [first [apply quiet_logging | apply quiet_lift]|intros ?]).
  apply quiet_lift.
Qed.

Lemma quiet_fetch_details_concurrently sch pubmed_ids fetch :
  quiet (fetch_details_concurrently sch pubmed_ids fetch).
Proof.
  unfold fetch_details_concurrently.
  apply quiet_bind; [apply quiet_lift|intros n].
  apply quiet_bind; [apply quiet_logging|intros _].
  destruct (pool_map_returns 2 (rebuilt sch) _ fetch (py_items pubmed_ids)
              (completion_order_perm sch _)) as (r & -> & _).
  apply quiet_lift.
Qed.

(** The writer raises before it writes, and does not print. *)
Lemma write_csv_outcome filename data w :
  match write_csv filename data w with
  | Returns _ w' => stdout w' = stdout w
  | Raises _ w' => files w' = files w /\ stdout w' = stdout w
  | Blocked => False
  end.
Proof.
  unfold write_csv, bind, to_csv, file_exists. cbn [logging files stdout log].
  by destruct (open_for_append _ filename).
Qed.

Lemma quiet_before_write env args : quiet (before_write env args).
Proof.
  unfold before_write.
  repeat (apply quiet_bind;
          [first [ apply quiet_logging | apply quiet_lift
                 | apply quiet_fetch_paper_ids
                 | apply quiet_fetch_details_concurrently ]
          |intros ?]).
  by intros w.
Qed.

Lemma main_try_stages env args w :
  main_try env args w =
  match before_write env args w with
  | Returns results w1 =>
      match write_csv (file args) results w1 with
      | Returns _ w2 =>
          Returns tt (logged w2 INFO ("Results successfully saved to " +:+ file args))
      | Raises e w2 => Raises e w2
      | Blocked => Blocked
      end
  | Raises e w1 => Raises e w1
  | Blocked => Blocked
  end.
Proof.
  unfold main_try, before_write, bind, ret. cbn [logging].
  destruct (fetch_paper_ids _ _ _ _) as [ids w1|e w1|]; [|done|done].
  destruct (lift (py_len ids) w1) as [n w2|e w2|]; [|done|done].
  destruct (fetch_details_concurrently _ _ _ _) as [results w3|e w3|]; [|done|done].
  by destruct (write_csv _ _ _) as [[] w4|e w4|].
Qed.

(** A run that raises has not written, nor printed, anything. *)
Lemma main_try_raises env args w e wf :
  main_try env args w = Raises e wf ->
  files wf = files w /\ stdout wf = stdout w.
Proof.
  rewrite main_try_stages. pose proof (quiet_before_write env args w) as Hq.
  destruct (before_write env args w) as [results w1|e1 w1|]; [|by intros [= <- <-]|done].
  pose proof (write_csv_outcome (file args) results w1) as Hw.
  destruct (write_csv _ _ _) as [[] w2|e2 w2|]; [done| |done].
  intros [= <- <-]. destruct Hq, Hw. split; congruence.
Qed.

Lemma main_try_not_blocked env args w : main_try env args w <> Blocked.
Proof.
  rewrite main_try_stages. pose proof (quiet_before_write env args w) as Hq.
  destruct (before_write env args w) as [results w1|e1 w1|]; [|done|done].
  pose proof (write_csv_outcome (file args) results w1) as Hw.
  by destruct (write_csv _ _ _) as [[] w2|e2 w2|].
Qed.

(** An exception of any of the three stages is the exception of the body
    of the [try]. *)
Lemma search_exception_reaches_handler env args w e w1 :
  fetch_paper_ids env (query args) (max args)
    (logged w INFO ("Fetching paper IDs for query: " +:+ query args)) = Raises e w1 ->
  main_try env args w = Raises e w1.
Proof. intros H. unfold main_try, bind. cbn [logging]. unfold logged in H. by rewrite H. Qed.

Lemma fetch_exception_reaches_handler env args w ids w1 n e w2 :
  fetch_paper_ids env (query args) (max args)
    (logged w INFO ("Fetching paper IDs for query: " +:+ query args)) = Returns ids w1 ->
  py_len ids = Ok n ->
  fetch_details_concurrently (scheduler env) ids (fetch_paper_details env)
    (logged w1 INFO ("Fetching details for " +:+ pretty n +:+ " papers")) = Raises e w2 ->
  main_try env args w = Raises e w2.
Proof.
  intros H1 Hn H2. unfold main_try, bind. cbn [logging]. unfold logged in H1, H2.
  rewrite H1, Hn. cbn [lift logging]. by rewrite H2.
Qed.

Lemma write_exception_reaches_handler env args w results w1 e w2 :
  before_write env args w = Returns results w1 ->
  write_csv (file args) results w1 = Raises e w2 ->
  main_try env args w = Raises e w2.
Proof. intros H1 H2. by rewrite main_try_stages, H1, H2. Qed.

(** C7: [main] always returns, so that the exit status is 0.  When a stage
    of the pipeline raises, the handler runs once: it logs the exception
    and prints the one line "Error: ..." after what had been printed.  The
    writer is only reached when everything before it has returned, and a run
    that raises before the writer leaves the files as they were. *)
Theorem C7_exceptions_caught_at_top_level env args w :
  (exists w', main env args w = Returns tt w') /\
  exit_status (main env args w) = Some 0%Z /\
  (forall e wf,
     main_try env args w = Raises e wf ->
     main env args w =
       Returns tt {| files := files wf;
                     stdout := stdout w ++ ["Error: " +:+ exc_str e];
                     log := log wf ++ [(ERROR, "An error occurred: " +:+ exc_str e)] |}) /\
  (forall e wf,
     before_write env args w = Raises e wf ->
     main_try env args w = Raises e wf /\ files wf = files w).
Proof.
  assert (forall e wf,
     main_try env args w = Raises e wf ->
     main env args w =
       Returns tt {| files := files wf;
                     stdout := stdout w ++ ["Error: " +:+ exc_str e];
                     log := log wf ++ [(ERROR, "An error occurred: " +:+ exc_str e)] |})
    as Hcaught.
  { intros e wf Hraise. destruct (main_try_raises _ _ _ _ _ Hraise) as [_ Hs].
    unfold main, try_except. rewrite Hraise.
    unfold main_except, bind, logging, print. cbn [files stdout log].
    by rewrite Hs. }
  assert (forall e wf,
     before_write env args w = Raises e wf ->
     main_try env args w = Raises e wf /\ files wf = files w) as Hbefore.
  { intros e wf Hraise. rewrite main_try_stages, Hraise. split; [done|].
    pose proof (quiet_before_write env args w) as Hq. rewrite Hraise in Hq.
    by destruct Hq. }
  pose proof (main_try_not_blocked env args w) as Hnb.
  destruct (main_try env args w) as [[] w1|e w1|] eqn:Etry; [| |done].
  - unfold main, try_except. rewrite Etry.
    split; [by eexists|]. split; [done|]. split; [done | exact Hbefore].
  - rewrite (Hcaught e w1 eq_refl).
    split; [by eexists|]. split; [done|]. split; [|exact Hbefore].
    intros e' wf [= <- <-]. reflexivity.
Qed.

(** ** The statements at sample inputs *)

(** C2 at an article with one author. *)
Lemma C2_record_fields_witness :
  exists rec,
    parse_paper_details Sample.order (Sample.article [Sample.jane]) = Ok rec /\
    List.map fst rec =
      [ "PubmedID"; "Title"; "Publication Date"; "Non-academic Author(s)";
        "Company Affiliation(s)"; "Corresponding Author Email" ].
Proof.
  eexists. split; [reflexivity|].
  apply (C2_record_fields Sample.order (Sample.article [Sample.jane])).
  reflexivity.
Defined.

(** C3 at an article whose first author is of a company's laboratory and
    whose second is of a university's pharma unit. *)
Lemma C3_classifications_independent_witness :
  (forall a, a ∈ ET.findall_desc "Author" (Sample.article [Sample.jane; Sample.rick]) ->
             affiliation_of a <> None) /\
  exists st rec,
    for_authors loop_init
      (ET.findall_desc "Author" (Sample.article [Sample.jane; Sample.rick])) = Ok st /\
    parse_paper_details Sample.order (Sample.article [Sample.jane; Sample.rick]) = Ok rec /\
    non_academic_authors st = ["Jane Doe"] /\
    "University of X, Pharma unit. roe@x.edu" ∈ company_affiliations st /\
    assoc "Non-academic Author(s)" rec = Some (Some "Jane Doe") /\
    assoc "Company Affiliation(s)" rec =
      Some (Some "University of X, Pharma unit. roe@x.edu").
Proof.
  assert (forall a, a ∈ ET.findall_desc "Author" (Sample.article [Sample.jane; Sample.rick]) ->
                    affiliation_of a <> None) as Hall.
  { intros a Ha. apply list_elem_of_In in Ha. simpl in Ha.
    destruct Ha as [<-|[<-|[]]]; discriminate. }
  split; [exact Hall|].
  destruct (C3_classifications_independent Sample.order
              (Sample.article [Sample.jane; Sample.rick]) Hall)
    as (st & rec & Hrun & Hrec & Hnames & Hauthor & _ & _ & _ & _).
  exists st, rec. split; [exact Hrun|]. split; [exact Hrec|].
  split; [exact Hnames|]. split.
  - apply (Hauthor Sample.rick "University of X, Pharma unit. roe@x.edu").
    + apply list_elem_of_In. simpl. right. by left.
    + reflexivity.
    + apply contains_spec. reflexivity.
    + apply contains_spec. reflexivity.
  - vm_compute in Hrec. injection Hrec as <-. split; reflexivity.
Defined.

(** C4 at an article with two authors who both give an email. *)
Lemma C4_first_email_wins_witness :
  (forall a, a ∈ ET.findall_desc "Author" (Sample.article [Sample.jane; Sample.rick]) ->
             affiliation_of a <> None) /\
  exists rec,
    parse_paper_details Sample.order (Sample.article [Sample.jane; Sample.rick]) = Ok rec /\
    assoc "Corresponding Author Email" rec = Some (Some "jane@acme.com").
Proof.
  assert (forall a, a ∈ ET.findall_desc "Author" (Sample.article [Sample.jane; Sample.rick]) ->
                    affiliation_of a <> None) as Hall.
  { intros a Ha. apply list_elem_of_In in Ha. simpl in Ha.
    destruct Ha as [<-|[<-|[]]]; discriminate. }
  split; [exact Hall|].
  exact (proj1 (C4_first_email_wins Sample.order
                  (Sample.article [Sample.jane; Sample.rick]) Hall)).
Defined.

(** C5 at a service that answers with three identifiers. *)
Lemma C5_idlist_returned_as_is_witness :
  requests_get Sample.three_ids (BASE_URL +:+ "/esearch.fcgi")
    [ ("db", JStr "pubmed"); ("term", JStr "cancer");
      ("retmax", JNum 3); ("retmode", JStr "json") ] =
    Ok (Sample.ok_json
          (JDict [("esearchresult",
                   JDict [("idlist", JList [JStr "1"; JStr "2"; JStr "3"])])])) /\
  fetch_paper_ids Sample.three_ids "cancer" 3 Sample.empty_world =
    Returns (JList [JStr "1"; JStr "2"; JStr "3"])
      (esearch_logged Sample.empty_world "cancer" 3).
Proof.
  split; [reflexivity|].
  apply (C5_idlist_returned_as_is Sample.three_ids "cancer" 3 Sample.empty_world
           (Sample.ok_json
              (JDict [("esearchresult",
                       JDict [("idlist", JList [JStr "1"; JStr "2"; JStr "3"])])]))
           (JDict [("esearchresult",
                    JDict [("idlist", JList [JStr "1"; JStr "2"; JStr "3"])])]));
    reflexivity.
Defined.

(** C7 at a service that is down. *)
Lemma C7_exceptions_caught_at_top_level_witness :
  (exists e wf, main_try Sample.unavailable Sample.args Sample.empty_world = Raises e wf) /\
  exists w',
    main Sample.unavailable Sample.args Sample.empty_world = Returns tt w' /\
    files w' = ∅ /\
    stdout w' =
      [ "Error: 503 Server Error: Service Unavailable for url: "
        +:+ BASE_URL +:+ "/esearch.fcgi" ] /\
    exit_status (main Sample.unavailable Sample.args Sample.empty_world) = Some 0%Z.
Proof.
  split; [eexists _, _; reflexivity|].
  destruct (C7_exceptions_caught_at_top_level Sample.unavailable Sample.args
              Sample.empty_world) as (_ & Hexit & Hcaught & _).
  eexists. split; [apply Hcaught; reflexivity|].
  split; [reflexivity|]. split; [reflexivity | exact Hexit].
Defined.

(** C8 at the three identifiers, the stub, and workers that finish in the
    reverse order. *)
Lemma C8_results_follow_input_order_witness :
  (forall id, id ∈ [JStr "1"; JStr "2"; JStr "3"] ->
              exists r, Sample.title_stub id = Ok r) /\
  exists results w',
    fetch_details_concurrently Sample.last_first
      (JList [JStr "1"; JStr "2"; JStr "3"]) Sample.title_stub Sample.empty_world =
      Returns results w' /\
    length results = 3.
Proof.
  assert (forall id, id ∈ [JStr "1"; JStr "2"; JStr "3"] ->
                     exists r, Sample.title_stub id = Ok r) as Hret.
  { intros id _. destruct id; eexists; reflexivity. }
  split; [exact Hret|].
  destruct (C8_results_follow_input_order Sample.last_first
              [JStr "1"; JStr "2"; JStr "3"] Sample.title_stub Sample.empty_world Hret)
    as [(results & w' & Hrun & Hlen & _) _].
  exists results, w'. split; [exact Hrun | exact Hlen].
Defined.

(** C9 at an article whose second author has an empty Affiliation. *)
Lemma C9_empty_affiliation_raises_witness :
  Sample.nora ∈ ET.findall_desc "Author" (Sample.article [Sample.jane; Sample.nora]) /\
  ET.find_desc "Affiliation" Sample.nora = Some (Elem "Affiliation" None []) /\
  parse_paper_details Sample.order (Sample.article [Sample.jane; Sample.nora]) =
    Raise not_iterable.
Proof.
  assert (Sample.nora ∈
            ET.findall_desc "Author" (Sample.article [Sample.jane; Sample.nora])) as Hin.
  { apply list_elem_of_In. simpl. right. left. reflexivity. }
  split; [exact Hin|]. split; [reflexivity|].
  apply (C9_empty_affiliation_raises Sample.order
           (Sample.article [Sample.jane; Sample.nora]) Sample.nora
           (Elem "Affiliation" None []) Hin); reflexivity.
Defined.

(** C10 at an author with a name and nothing else. *)
Lemma C10_no_affiliation_is_non_academic_witness :
  (forall e, e ∈ ET.descendants Sample.paul -> tag e <> "Affiliation") /\
  author_step loop_init Sample.paul =
    Ok {| non_academic_authors := ["Paul Poe"];
          company_affiliations := ∅;
          corresponding_author_email := None |}.
Proof.
  assert (forall e, e ∈ ET.descendants Sample.paul -> tag e <> "Affiliation") as Hno.
  { intros e He. apply list_elem_of_In in He. simpl in He.
    destruct He as [<-|[<-|[]]]; discriminate. }
  split; [exact Hno|].
  apply (C10_no_affiliation_is_non_academic loop_init Sample.paul Hno).
Defined.

(** * Further properties *)

(** ** The classifiers *)

Lemma substring_of_trans a b c :
  PyStr.substring_of a b -> PyStr.substring_of b c -> PyStr.substring_of a c.
Proof.
  intros (p1 & s1 & ->) (p2 & s2 & ->).
  exists (p2 +:+ p1), (s1 +:+ s2). by rewrite !append_assoc.
Qed.

Lemma contains_trans a b c :
  PyStr.contains a b = true -> PyStr.contains b c = true -> PyStr.contains a c = true.
Proof. rewrite !contains_spec. apply substring_of_trans. Qed.

Lemma has_keyword_spec keywords s :
  has_keyword keywords s = true <->
  exists keyword, keyword ∈ keywords /\ PyStr.substring_of keyword s.
Proof. apply existsb_contains_true. Qed.

Lemma has_keyword_mono keywords s s' :
  PyStr.substring_of s s' -> has_keyword keywords s = true ->
  has_keyword keywords s' = true.
Proof.
  intros Hs H. apply has_keyword_spec in H as (k & Hk & H).
  apply has_keyword_spec. exists k. split; [done|]. by eapply substring_of_trans.
Qed.

Lemma is_academic_str s : is_academic (Some s) = Ok (has_keyword academic_keywords s).
Proof. apply any_keyword_in_str. Qed.

Lemma is_company_str s : is_company (Some s) = Ok (has_keyword company_keywords s).
Proof. apply any_keyword_in_str. Qed.

(** X1: of the four company keywords only "Pharma" and "Biotech" decide:
    an affiliation string is a company's exactly when it has one of these
    two as a substring; "Pharmaceutical" and "Biotechnology" never change
    the answer. *)
Theorem X1_company_two_keywords_decide s :
  is_company (Some s) = Ok (PyStr.contains "Pharma" s || PyStr.contains "Biotech" s) /\
  (is_company (Some s) = Ok true <->
   PyStr.substring_of "Pharma" s \/ PyStr.substring_of "Biotech" s).
Proof.
  assert (is_company (Some s) =
          Ok (PyStr.contains "Pharma" s || PyStr.contains "Biotech" s)) as Heq.
  { rewrite is_company_str. f_equal. unfold has_keyword, company_keywords.
    cbn [existsb].
    pose proof (contains_trans "Pharma" "Pharmaceutical" s eq_refl) as H1.
    pose proof (contains_trans "Biotech" "Biotechnology" s eq_refl) as H2.
    destruct (PyStr.contains "Pharma" s), (PyStr.contains "Biotech" s),
      (PyStr.contains "Pharmaceutical" s), (PyStr.contains "Biotechnology" s);
      try reflexivity; try (by discriminate (H1 eq_refl));
      by discriminate (H2 eq_refl). }
  split; [exact Heq|]. rewrite Heq, <- !contains_spec. split.
  - intros [= H]. by apply orb_true_iff in H.
  - intros H. f_equal. by apply orb_true_iff.
Qed.

(** X2: both classifications are kept when text is added to an
    affiliation: if a string is academic (a company's), so is every string
    that contains it. *)
Theorem X2_classification_kept_by_extension s s' :
  PyStr.substring_of s s' ->
  (is_academic (Some s) = Ok true -> is_academic (Some s') = Ok true) /\
  (is_company (Some s) = Ok true -> is_company (Some s') = Ok true).
Proof.
  intros Hs. rewrite !is_academic_str, !is_company_str.
  split; intros [= H]; f_equal; by eapply has_keyword_mono.
Qed.

Lemma X2_classification_kept_by_extension_witness :
  PyStr.substring_of "Acme Pharma" "Dept. of Chemistry, Acme Pharma, Basel" /\
  is_company (Some "Dept. of Chemistry, Acme Pharma, Basel") = Ok true.
Proof.
  assert (PyStr.substring_of "Acme Pharma" "Dept. of Chemistry, Acme Pharma, Basel")
    as Hs by (apply contains_spec; reflexivity).
  split; [exact Hs|].
  apply (X2_classification_kept_by_extension _ _ Hs). reflexivity.
Defined.

(** ** The email of an affiliation *)

Lemma list_ascii_app s t :
  list_ascii_of_string (s +:+ t) = list_ascii_of_string s ++ list_ascii_of_string t.
Proof.
  induction s as [|a s IH]; [done|]. rewrite append_cons. simpl. by rewrite IH.
Qed.

(** A one-character pattern occurs in a string when the character does. *)
Lemma contains_char c s :
  PyStr.contains (String c "") s = existsb (Ascii.eqb c) (list_ascii_of_string s).
Proof.
  induction s as [|b s IH]; [done|].
  rewrite contains_unfold, IH. simpl. by destruct (Ascii.eqb c b).
Qed.

Lemma contains_char_In c s :
  PyStr.contains (String c "") s = true <-> In c (list_ascii_of_string s).
Proof.
  rewrite contains_char, existsb_exists. split.
  - intros (b & Hb & Heq). by apply Ascii.eqb_eq in Heq as ->.
  - intros H. exists c. split; [done | apply Ascii.eqb_refl].
Qed.

(** Every word of [split] occurs in the string. *)
Lemma split_from_substring cur s w :
  w ∈ PyStr.split_from cur s -> PyStr.substring_of w (cur +:+ s).
Proof.
  revert cur. induction s as [|c s IH]; intros cur; cbn [PyStr.split_from].
  - case_decide as Hc; [intros Hw; by apply not_elem_of_nil in Hw|].
    intros Hw. apply list_elem_of_singleton in Hw as ->.
    exists "", "". by rewrite append_empty_r.
  - destruct (PyStr.isspace c).
    + assert (w ∈ PyStr.split_from "" s -> PyStr.substring_of w (cur +:+ String c s))
        as Hrest.
      { intros Hw. destruct (IH "" Hw) as (pre & suf & Hs).
        change ("" +:+ s) with s in Hs.
        exists (cur +:+ String c pre), suf.
        rewrite Hs, append_assoc. by rewrite append_cons. }
      case_decide as Hc; [exact Hrest|].
      intros Hw. apply elem_of_cons in Hw as [->|Hw]; [|by apply Hrest].
      by exists "", (String c s).
    + intros Hw. rewrite append_snoc. by apply IH.
Qed.

(** Every character that is not whitespace is in a word of [split]. *)
Lemma split_from_covers cur s c :
  PyStr.isspace c = false ->
  In c (list_ascii_of_string (cur +:+ s)) ->
  exists w, w ∈ PyStr.split_from cur s /\ In c (list_ascii_of_string w).
Proof.
  intros Hc. revert cur. induction s as [|b s IH]; intros cur; cbn [PyStr.split_from].
  - rewrite append_empty_r. intros Hin.
    case_decide as Hcur; [by subst|]. exists cur. split; [left | done].
  - destruct (PyStr.isspace b) eqn:Hb.
    + rewrite list_ascii_app. simpl. intros Hin.
      apply in_app_or in Hin as [Hin|[->|Hin]].
      * case_decide as Hcur; [by subst|]. exists cur. split; [left | done].
      * congruence.
      * destruct (IH "" Hin) as (w & Hw & Hcw).
        exists w. split; [|done]. case_decide; [done | by right].
    + rewrite append_snoc. apply IH.
Qed.

Lemma email_of_Some s e :
  email_of (Some s) = Some e ->
  e ∈ PyStr.split s /\ PyStr.contains "@" e = true.
Proof.
  rewrite email_of_str. intros H.
  assert (In e (List.filter (PyStr.contains "@") (PyStr.split s))) as Hin.
  { destruct (List.filter _ _); simplify_eq/=. by left. }
  apply filter_In in Hin as [Hin He]. split; [by apply list_elem_of_In | done].
Qed.

(** No email is found exactly when the affiliation has no ["@"]. *)
Lemma email_of_None s :
  email_of (Some s) = None <-> PyStr.contains "@" s = false.
Proof.
  split.
  - intros Hnone. destruct (PyStr.contains "@" s) eqn:Hat; [|done].
    apply (proj1 (contains_char_In "@"%char s)) in Hat.
    destruct (split_from_covers "" s "@"%char eq_refl Hat) as (w & Hw & Hcw).
    apply (proj2 (contains_char_In "@"%char w)) in Hcw.
    rewrite email_of_str in Hnone. apply head_None in Hnone.
    assert (In w (List.filter (PyStr.contains "@") (PyStr.split s))) as Hin
      by (apply filter_In; split; [by apply list_elem_of_In | done]).
    by rewrite Hnone in Hin.
  - intros Hat. destruct (email_of (Some s)) as [e|] eqn:He; [|done].
    apply email_of_Some in He as [Hin He].
    apply (split_from_substring "" s) in Hin. change ("" +:+ s) with s in Hin.
    apply contains_spec in Hin.
    by rewrite (contains_trans _ _ _ He Hin) in Hat.
Qed.

Lemma head_filter_Some {A} (p : A -> bool) l x :
  head (List.filter p l) = Some x ->
  exists before after,
    l = before ++ x :: after /\ p x = true /\ Forall (fun y => p y = false) before.
Proof.
  induction l as [|y l IH]; cbn [List.filter]; [done|].
  destruct (p y) eqn:Hy.
  - intros [= ->]. by exists [], l.
  - intros H. destruct (IH H) as (before & after & -> & Hx & Hb).
    exists (y :: before), after. split; [done|]. split; [done | by constructor].
Qed.

(** A word of [split] stands in the string between whitespace or the ends
    of the string, and the words before it are the words of what precedes
    it. *)
Lemma split_from_decompose s : forall cur before w after,
  Forall (fun c => PyStr.isspace c = false) (list_ascii_of_string cur) ->
  PyStr.split_from cur s = before ++ w :: after ->
  exists pre suf,
    cur +:+ s = pre +:+ w +:+ suf /\
    (pre = "" \/ exists p c, pre = p +:+ String c "" /\ PyStr.isspace c = true) /\
    (suf = "" \/ exists c r, suf = String c r /\ PyStr.isspace c = true) /\
    PyStr.split_from "" pre = before.
Proof.
  assert (forall c pre, PyStr.isspace c = true -> forall front,
            (pre = "" \/ exists p c', pre = p +:+ String c' "" /\ PyStr.isspace c' = true) ->
            exists p c', front +:+ String c pre = p +:+ String c' "" /\
                         PyStr.isspace c' = true) as Hends.
  { intros c pre Hc front [->|(p & c' & -> & Hc')].
    - by exists front, c.
    - exists (front +:+ String c p), c'. split; [|done].
      by rewrite append_assoc, append_cons. }
  induction s as [|c s IH]; intros cur before w after Hcur; cbn [PyStr.split_from].
  - case_decide as Hc; [by destruct before|].
    destruct before as [|b before]; [|by destruct before].
    intros [= <- <-]. exists "", "". split; [done|]. split; [by left|].
    split; [by left | done].
  - destruct (PyStr.isspace c) eqn:Ec.
    + case_decide as Hc.
      * subst cur. intros Hsplit.
        destruct (IH "" before w after ltac:(constructor) Hsplit)
          as (pre & suf & Heq & Hpre & Hsuf & Hbefore).
        change ("" +:+ s) with s in Heq.
        exists (String c pre), suf. split; [by rewrite Heq|].
        split; [right; apply (Hends c pre Ec "" Hpre)|]. split; [done|].
        cbn [PyStr.split_from]. rewrite Ec. by case_decide.
      * destruct before as [|b before].
        -- intros [= <- <-]. exists "", (String c s). split; [done|].
           split; [by left|]. split; [right; by exists c, s | done].
        -- intros [= <- Hsplit].
           destruct (IH "" before w after ltac:(constructor) Hsplit)
             as (pre & suf & Heq & Hpre & Hsuf & Hbefore).
           change ("" +:+ s) with s in Heq.
           exists (cur +:+ String c pre), suf.
           split; [by rewrite Heq, append_assoc, append_cons|].
           split; [right; apply (Hends c pre Ec cur Hpre)|]. split; [done|].
           rewrite (split_from_word "" cur _ Hcur). change ("" +:+ cur) with cur.
           cbn [PyStr.split_from]. rewrite Ec, Hbefore. by case_decide.
    + intros Hsplit. rewrite append_snoc. apply (IH _ before w after); [|done].
      rewrite list_ascii_snoc. apply Forall_app. split; [done|]. by constructor.
Qed.

(** X3: the email taken from an affiliation string is the whole word that
    holds the first "@" of the string, a word being what stands between
    whitespace or the ends of the string: there is no "@" before the word,
    the word is not empty and holds an "@" and no whitespace, and it is
    taken with whatever punctuation stands around the address.  It is the
    first word of the split that holds an "@". *)
Theorem X3_email_is_a_word_with_at s e :
  email_of (Some s) = Some e ->
  (exists pre suf,
     s = pre +:+ e +:+ suf /\
     ~ PyStr.substring_of "@" pre /\
     (pre = "" \/ exists p c, pre = p +:+ String c "" /\ PyStr.isspace c = true) /\
     (suf = "" \/ exists c r, suf = String c r /\ PyStr.isspace c = true)) /\
  (exists before after,
     PyStr.split s = before ++ e :: after /\
     forall w, w ∈ before -> ~ PyStr.substring_of "@" w) /\
  PyStr.substring_of e s /\
  e <> "" /\
  PyStr.substring_of "@" e /\
  Forall (fun c => PyStr.isspace c = false) (list_ascii_of_string e).
Proof.
  intros He. pose proof (email_of_Some _ _ He) as [Hin Hat].
  rewrite email_of_str in He.
  apply head_filter_Some in He as (before & after & Hsplit & _ & Hbefore).
  destruct (split_from_decompose s "" before e after ltac:(constructor) Hsplit)
    as (pre & suf & Heq & Hpre & Hsuf & Hwords).
  change ("" +:+ s) with s in Heq.
  split; [|split; [|split; [|split; [|split]]]].
  - exists pre, suf. split; [done|]. split; [|done].
    intros Hsub. apply contains_spec in Hsub.
    apply (proj1 (contains_char_In "@"%char pre)) in Hsub.
    destruct (split_from_covers "" pre "@"%char eq_refl Hsub) as (w & Hw & Hcw).
    apply (proj2 (contains_char_In "@"%char w)) in Hcw.
    rewrite Hwords in Hw. rewrite Forall_forall in Hbefore.
    by rewrite (Hbefore w Hw) in Hcw.
  - exists before, after. split; [done|]. intros w Hw Hsub.
    apply contains_spec in Hsub. rewrite Forall_forall in Hbefore.
    by rewrite (Hbefore w Hw) in Hsub.
  - by exists pre, suf.
  - by destruct (split_words s e Hin).
  - by apply contains_spec.
  - by destruct (split_words s e Hin).
Qed.

Lemma X3_email_is_a_word_with_at_witness :
  email_of (Some "Acme Labs (jane@acme.com). Boston") = Some "(jane@acme.com)." /\
  exists before after,
    PyStr.split "Acme Labs (jane@acme.com). Boston" = before ++ "(jane@acme.com)." :: after /\
    forall w, w ∈ before -> ~ PyStr.substring_of "@" w.
Proof.
  split; [reflexivity|].
  apply (X3_email_is_a_word_with_at "Acme Labs (jane@acme.com). Boston" "(jane@acme.com).").
  reflexivity.
Defined.

(** X4: in a record parsed from authors that all have an affiliation
    string, the email field is "None" exactly when no affiliation has an
    "@". *)
Theorem X4_email_none_iff_no_at ord root :
  (forall a, a ∈ ET.findall_desc "Author" root -> affiliation_of a <> None) ->
  exists rec,
    parse_paper_details ord root = Ok rec /\
    (assoc "Corresponding Author Email" rec = Some (Some "None") <->
     forall a s, a ∈ ET.findall_desc "Author" root -> affiliation_of a = Some s ->
                 ~ PyStr.substring_of "@" s).
Proof.
  intros Hall.
  destruct (for_authors_email loop_init _ Hall) as (st' & Hrun & Hmail).
  unfold parse_paper_details. rewrite Hrun. cbn [rbind].
  eexists. split; [reflexivity|].
  cbn [assoc]. repeat (case_decide; [discriminate|]). case_decide; [|done].
  rewrite Hmail. cbn [loop_init corresponding_author_email str_truthy].
  set (authors := ET.findall_desc "Author" root) in *. clearbody authors.
  clear Hrun Hmail st'. split.
  - intros Hfield a s Ha Hs Hat.
    assert (exists e, e ∈ candidate_emails authors) as [e He].
    { destruct (email_of (Some s)) as [e|] eqn:Hemail.
      - exists e. apply list_elem_of_In, in_flat_map. exists a.
        split; [by apply list_elem_of_In|]. rewrite Hs.
        apply email_of_Some in Hemail as [Hin Hc].
        apply filter_In. split; [by apply list_elem_of_In | done].
      - apply email_of_None in Hemail. apply contains_spec in Hat. congruence. }
    destruct (candidate_emails authors) as [|w ws] eqn:E;
      [by apply not_elem_of_nil in He|].
    cbn [head] in Hfield.
    assert (PyStr.contains "@" w = true) as Hw.
    { assert (In w (candidate_emails authors)) as Hin by (rewrite E; by left).
      unfold candidate_emails in Hin. apply in_flat_map in Hin as (a' & _ & Hin).
      destruct (affiliation_of a'); [|done]. by apply filter_In in Hin as [_ Hw]. }
    rewrite (at_word_truthy _ Hw) in Hfield. cbn in Hfield.
    injection Hfield as ->. discriminate Hw.
  - intros Hno. destruct (candidate_emails authors) as [|w ws] eqn:E; [done|].
    assert (In w (candidate_emails authors)) as Hin by (rewrite E; by left).
    unfold candidate_emails in Hin. apply in_flat_map in Hin as (a & Ha & Hin).
    destruct (affiliation_of a) as [s|] eqn:Hs; [|done].
    apply filter_In in Hin as [Hin Hw].
    apply list_elem_of_In in Ha, Hin.
    apply (split_from_substring "" s) in Hin. change ("" +:+ s) with s in Hin.
    apply contains_spec in Hw.
    destruct (Hno a s Ha Hs). by eapply substring_of_trans.
Qed.

Lemma X4_email_none_iff_no_at_witness :
  (forall a, a ∈ ET.findall_desc "Author" (Sample.article [Fixture.ann; Fixture.cleo]) ->
             affiliation_of a <> None) /\
  exists rec,
    parse_paper_details Sample.order (Sample.article [Fixture.ann; Fixture.cleo]) = Ok rec /\
    assoc "Corresponding Author Email" rec = Some (Some "None").
Proof.
  assert (forall a, a ∈ ET.findall_desc "Author" (Sample.article [Fixture.ann; Fixture.cleo]) ->
                    affiliation_of a <> None) as Hall.
  { intros a Ha. apply list_elem_of_In in Ha. simpl in Ha.
    destruct Ha as [<-|[<-|[]]]; discriminate. }
  split; [exact Hall|].
  destruct (X4_email_none_iff_no_at Sample.order
              (Sample.article [Fixture.ann; Fixture.cleo]) Hall) as (rec & Hrec & _).
  exists rec. split; [exact Hrec|].
  vm_compute in Hrec. injection Hrec as <-. reflexivity.
Defined.

(** ** The author loop as a whole *)

Lemma for_authors_raises_at st authors e :
  for_authors st authors = Raise e ->
  exists a, a ∈ authors /\ affiliation_of a = None.
Proof.
  revert st. induction authors as [|a l IH]; intros st; cbn [for_authors]; [done|].
  destruct (affiliation_of a) as [s|] eqn:Ha.
  - rewrite (author_step_str _ _ _ Ha). cbn [rbind]. intros Hrun.
    destruct (IH _ Hrun) as (a' & Ha' & Hnone). exists a'. split; [by right | done].
  - intros _. exists a. split; [left | done].
Qed.

(** X5: in a record parsed from authors that all have an affiliation
    string, the non-academic field is the names, joined by "; " and in
    document order, of exactly the authors whose affiliation has no academic
    keyword, and "None" when there is no such author. *)
Theorem X5_non_academic_field_is_filtered_names ord root :
  (forall a, a ∈ ET.findall_desc "Author" root -> affiliation_of a <> None) ->
  exists rec,
    parse_paper_details ord root = Ok rec /\
    assoc "Non-academic Author(s)" rec =
      Some (Some (match non_academic_names (ET.findall_desc "Author" root) with
                  | [] => "None"
                  | _ :: _ =>
                      PyStr.join "; " (non_academic_names (ET.findall_desc "Author" root))
                  end)).
Proof.
  intros Hall. eexists. split; [by apply parse_paper_details_str|]. reflexivity.
Qed.

Lemma X5_non_academic_field_is_filtered_names_witness :
  (forall a, a ∈ ET.findall_desc "Author"
                   (Sample.article [Fixture.ann; Fixture.cleo; Fixture.bob]) ->
             affiliation_of a <> None) /\
  exists rec,
    parse_paper_details Sample.order
      (Sample.article [Fixture.ann; Fixture.cleo; Fixture.bob]) = Ok rec /\
    assoc "Non-academic Author(s)" rec = Some (Some "Ann Lee; Bob Ray").
Proof.
  assert (forall a, a ∈ ET.findall_desc "Author"
                          (Sample.article [Fixture.ann; Fixture.cleo; Fixture.bob]) ->
                    affiliation_of a <> None) as Hall.
  { intros a Ha. apply list_elem_of_In in Ha. simpl in Ha.
    destruct Ha as [<-|[<-|[<-|[]]]]; discriminate. }
  split; [exact Hall|].
  exact (X5_non_academic_field_is_filtered_names Sample.order
           (Sample.article [Fixture.ann; Fixture.cleo; Fixture.bob]) Hall).
Defined.

(** X6: in a record parsed from authors that all have an affiliation
    string, the company field joins a list without repetition whose members
    are exactly the affiliation strings that have a company keyword: an
    affiliation shared by several authors is written once.  The field is
    "None" when no affiliation has a company keyword. *)
Theorem X6_company_field_has_no_repetition ord root :
  (forall a, a ∈ ET.findall_desc "Author" root -> affiliation_of a <> None) ->
  exists rec cs,
    parse_paper_details ord root = Ok rec /\
    assoc "Company Affiliation(s)" rec =
      Some (Some (match cs with [] => "None" | _ :: _ => PyStr.join "; " cs end)) /\
    NoDup cs /\
    (forall c, c ∈ cs <-> c ∈ company_strings (ET.findall_desc "Author" root)).
Proof.
  intros Hall. eexists.
  exists (set_iter ord (list_to_set (company_strings (ET.findall_desc "Author" root)))).
  split; [by apply parse_paper_details_str|]. split; [reflexivity|].
  pose proof (set_iter_perm ord
                (list_to_set (company_strings (ET.findall_desc "Author" root)))) as Hperm.
  split.
  - rewrite Hperm. apply NoDup_elements.
  - intros c. rewrite Hperm, elem_of_elements. apply elem_of_list_to_set.
Qed.

Lemma X6_company_field_has_no_repetition_witness :
  (forall a, a ∈ ET.findall_desc "Author"
                   (Sample.article [Fixture.ann; Fixture.cleo; Fixture.bob]) ->
             affiliation_of a <> None) /\
  exists rec,
    parse_paper_details Sample.order
      (Sample.article [Fixture.ann; Fixture.cleo; Fixture.bob]) = Ok rec /\
    assoc "Company Affiliation(s)" rec = Some (Some "Acme Pharma Inc., Basel").
Proof.
  assert (forall a, a ∈ ET.findall_desc "Author"
                          (Sample.article [Fixture.ann; Fixture.cleo; Fixture.bob]) ->
                    affiliation_of a <> None) as Hall.
  { intros a Ha. apply list_elem_of_In in Ha. simpl in Ha.
    destruct Ha as [<-|[<-|[<-|[]]]]; discriminate. }
  split; [exact Hall|].
  destruct (X6_company_field_has_no_repetition Sample.order
              (Sample.article [Fixture.ann; Fixture.cleo; Fixture.bob]) Hall)
    as (rec & cs & Hrec & _).
  exists rec. split; [exact Hrec|].
  vm_compute in Hrec. injection Hrec as <-. reflexivity.
Defined.

(** X7: the parser returns a record exactly when every Author node has an
    affiliation that is a string, and raises exactly when some Author node
    has an Affiliation without text; the exception is then the TypeError of
    the substring test, and no other exception ever leaves the parser. *)
Theorem X7_parser_fails_only_on_empty_affiliation ord root :
  ((exists rec, parse_paper_details ord root = Ok rec) <->
   forall a, a ∈ ET.findall_desc "Author" root -> affiliation_of a <> None) /\
  ((exists e, parse_paper_details ord root = Raise e) <->
   exists a aff, a ∈ ET.findall_desc "Author" root /\
                 ET.find_desc "Affiliation" a = Some aff /\ text aff = None) /\
  (forall e, parse_paper_details ord root = Raise e -> e = not_iterable).
Proof.
  assert (forall a, affiliation_of a = None <->
            exists aff, ET.find_desc "Affiliation" a = Some aff /\ text aff = None)
    as Hnone.
  { intros a. unfold affiliation_of, text_or_na.
    destruct (ET.find_desc "Affiliation" a) as [aff|]; split.
    - intros H. by exists aff.
    - by intros (aff' & [= <-] & H).
    - done.
    - by intros (aff' & ? & _). }
  unfold parse_paper_details.
  destruct (for_authors loop_init (ET.findall_desc "Author" root)) as [st|e] eqn:Hrun;
    cbn [rbind].
  - split; [|split].
    + split; [|by eexists]. intros _ a Ha Hno.
      by rewrite (for_authors_none _ _ _ Ha Hno) in Hrun.
    + split; [by intros [e ?]|]. intros (a & aff & Ha & Hfind & Htext).
      assert (affiliation_of a = None) as Hno by (apply Hnone; eauto).
      by rewrite (for_authors_none _ _ _ Ha Hno) in Hrun.
    + done.
  - destruct (for_authors_raises_at _ _ _ Hrun) as (a & Ha & Hno).
    split; [|split].
    + split; [by intros [rec ?]|]. intros Hall. by destruct (Hall a Ha).
    + split; [|by eexists]. intros _. apply Hnone in Hno as (aff & Hfind & Htext).
      by exists a, aff.
    + intros e' [= <-]. by apply for_authors_raises in Hrun.
Qed.

(** ** Which nodes the parser reads *)

Lemma filter_none {A} (p : A -> bool) (l : list A) :
  (forall x, x ∈ l -> p x = false) -> List.filter p l = [].
Proof.
  induction l as [|x l IH]; intros H; [done|]. simpl.
  rewrite (H x) by left. apply IH. intros y Hy. apply H. by right.
Qed.

(** [find(".//t")] gives the first node with the tag in document order. *)
Lemma find_desc_first t root before e after :
  ET.descendants root = before ++ e :: after ->
  tag e = t ->
  (forall x, x ∈ before -> tag x <> t) ->
  ET.find_desc t root = Some e.
Proof.
  intros Hdesc He Hbefore. unfold ET.find_desc, ET.findall_desc.
  rewrite Hdesc, List.filter_app, filter_none.
  - simpl. by rewrite (proj2 (has_tag_true t e) He).
  - intros x Hx. specialize (Hbefore x Hx). unfold ET.has_tag. by case_decide.
Qed.

Lemma find_None t e :
  (forall c, c ∈ children e -> tag c <> t) -> ET.find t e = None.
Proof.
  intros H. unfold ET.find. rewrite filter_none; [done|].
  intros c Hc. specialize (H c Hc). unfold ET.has_tag. by case_decide.
Qed.

(** X8: the identifier of a record is the text of the first PMID node in
    document order; the PMID nodes that follow it, such as those of cited
    articles, are not read. *)
Theorem X8_identifier_is_first_pmid ord root before e after rec :
  ET.descendants root = before ++ e :: after ->
  tag e = "PMID" ->
  (forall x, x ∈ before -> tag x <> "PMID") ->
  parse_paper_details ord root = Ok rec ->
  assoc "PubmedID" rec = Some (text e).
Proof.
  intros Hdesc He Hbefore. unfold parse_paper_details.
  rewrite (find_desc_first _ _ _ _ _ Hdesc He Hbefore).
  destruct (for_authors _ _); cbn [rbind]; [|done]. by intros [= <-].
Qed.

Lemma X8_identifier_is_first_pmid_witness :
  ET.descendants Fixture.citing =
    [] ++ Sample.leaf "PMID" "123" ::
      [ Sample.leaf "ArticleTitle" "A study";
        Elem "ReferenceList" None [Sample.leaf "PMID" "999"];
        Sample.leaf "PMID" "999" ] /\
  exists rec,
    parse_paper_details Sample.order Fixture.citing = Ok rec /\
    assoc "PubmedID" rec = Some (Some "123").
Proof.
  split; [reflexivity|]. eexists. split; [reflexivity|].
  apply (X8_identifier_is_first_pmid Sample.order Fixture.citing []
           (Sample.leaf "PMID" "123")
           [ Sample.leaf "ArticleTitle" "A study";
             Elem "ReferenceList" None [Sample.leaf "PMID" "999"];
             Sample.leaf "PMID" "999" ]).
  - reflexivity.
  - reflexivity.
  - intros x Hx. by apply not_elem_of_nil in Hx.
  - reflexivity.
Defined.

(** X9: the name of an author is read from the direct children of the
    Author node only: when no child is a LastName and no child is a
    ForeName, the name is "N/A N/A", whatever lies deeper in the node. *)
Theorem X9_name_from_direct_children author :
  (forall c, c ∈ children author -> tag c <> "LastName") ->
  (forall c, c ∈ children author -> tag c <> "ForeName") ->
  author_name_of author = "N/A N/A".
Proof.
  intros Hlast Hfore. unfold author_name_of.
  by rewrite (find_None _ _ Hlast), (find_None _ _ Hfore).
Qed.

Lemma X9_name_from_direct_children_witness :
  (exists e, e ∈ ET.descendants Fixture.wrapped_name /\ tag e = "LastName") /\
  author_name_of Fixture.wrapped_name = "N/A N/A".
Proof.
  split.
  - exists (Sample.leaf "LastName" "Doe"). split; [|reflexivity].
    apply list_elem_of_In. simpl. right. left. reflexivity.
  - apply X9_name_from_direct_children;
      intros c Hc; apply list_elem_of_In in Hc; simpl in Hc;
      destruct Hc as [<-|[]]; discriminate.
Defined.

(** ** The fetch client *)

Lemma raise_for_status_error r :
  error_status (status_code r) ->
  raise_for_status r =
    Raise (Exc HTTPError
             (pretty (status_code r) +:+ " "
              +:+ (if decide (status_code r < 500)%Z then "Client" else "Server")
              +:+ " Error: " +:+ reason r +:+ " for url: " +:+ url r)).
Proof.
  unfold error_status, raise_for_status. intros H.
  repeat case_decide; try done; lia.
Qed.

Lemma raise_for_status_ok r :
  ~ error_status (status_code r) -> raise_for_status r = Ok tt.
Proof.
  unfold error_status, raise_for_status. intros H.
  repeat case_decide; try done; lia.
Qed.

Lemma raise_for_status_cases r :
  (error_status (status_code r) /\ exists msg, raise_for_status r = Raise (Exc HTTPError msg)) \/
  (~ error_status (status_code r) /\ raise_for_status r = Ok tt).
Proof.
  destruct (decide (400 <= status_code r < 600)%Z) as [H|H].
  - left. split; [done|]. rewrite (raise_for_status_error r H). by eexists.
  - right. split; [done|]. by apply raise_for_status_ok.
Qed.

(** X10: when the service answers a fetch with a status from 400 to 599,
    fetch_paper_details raises an HTTPError whose text names the status, the
    reason and the URL, and the body is not parsed, well-formed or not. *)
Theorem X10_fetch_details_error_status env pubmed_id response :
  requests_get env (BASE_URL +:+ "/efetch.fcgi")
    [ ("db", JStr "pubmed"); ("id", pubmed_id); ("retmode", JStr "xml") ] = Ok response ->
  (400 <= status_code response < 600)%Z ->
  fetch_paper_details env pubmed_id =
    Raise (Exc HTTPError
             (pretty (status_code response) +:+ " "
              +:+ (if decide (status_code response < 500)%Z then "Client" else "Server")
              +:+ " Error: " +:+ reason response +:+ " for url: " +:+ url response)).
Proof.
  intros Hget Hstatus. unfold fetch_paper_details.
  rewrite Hget. cbn [rbind]. by rewrite (raise_for_status_error response Hstatus).
Qed.

Lemma X10_fetch_details_error_status_witness :
  requests_get Fixture.refusing (BASE_URL +:+ "/efetch.fcgi")
    [ ("db", JStr "pubmed"); ("id", JStr "1"); ("retmode", JStr "xml") ] =
    Ok (Fixture.xml_response 429 "Too Many Requests" (Sample.article [Sample.jane])) /\
  fetch_paper_details Fixture.refusing (JStr "1") =
    Raise (Exc HTTPError
             ("429 Client Error: Too Many Requests for url: "
              +:+ BASE_URL +:+ "/efetch.fcgi")).
Proof.
  split; [reflexivity|].
  apply (X10_fetch_details_error_status Fixture.refusing (JStr "1")
           (Fixture.xml_response 429 "Too Many Requests" (Sample.article [Sample.jane])));
    [reflexivity | simpl; lia].
Defined.

(** X11: fetch_paper_details returns a record exactly when the request is
    answered, the status is not an error status, the body is well-formed XML
    and the parser returns that record on its tree; an exception of the
    transport or of the XML parser is passed on as it is. *)
Theorem X11_fetch_details_steps env pubmed_id :
  (forall rec,
     fetch_paper_details env pubmed_id = Ok rec <->
     exists response root,
       requests_get env (BASE_URL +:+ "/efetch.fcgi")
         [ ("db", JStr "pubmed"); ("id", pubmed_id); ("retmode", JStr "xml") ]
         = Ok response /\
       ~ (400 <= status_code response < 600)%Z /\
       xml_result response = Ok root /\
       parse_paper_details (set_order env) root = Ok rec) /\
  (forall e,
     requests_get env (BASE_URL +:+ "/efetch.fcgi")
       [ ("db", JStr "pubmed"); ("id", pubmed_id); ("retmode", JStr "xml") ] = Raise e ->
     fetch_paper_details env pubmed_id = Raise e) /\
  (forall response e,
     requests_get env (BASE_URL +:+ "/efetch.fcgi")
       [ ("db", JStr "pubmed"); ("id", pubmed_id); ("retmode", JStr "xml") ]
       = Ok response ->
     ~ (400 <= status_code response < 600)%Z ->
     xml_result response = Raise e ->
     fetch_paper_details env pubmed_id = Raise e).
Proof.
  unfold fetch_paper_details. split; [|split].
  - intros rec. split.
    + destruct (requests_get env _ _) as [response|]; cbn [rbind]; [|done].
      destruct (raise_for_status_cases response) as [[_ [msg ->]]|[Hok ->]];
        cbn [rbind]; [done|].
      destruct (xml_result response) as [root|] eqn:Hxml; cbn [rbind]; [|done].
      intros Hparse. by exists response, root.
    + intros (response & root & -> & Hok & Hxml & Hparse). cbn [rbind].
      rewrite (raise_for_status_ok response Hok). cbn [rbind]. by rewrite Hxml.
  - by intros e ->.
  - intros response e -> Hok Hxml. cbn [rbind].
    rewrite (raise_for_status_ok response Hok). cbn [rbind]. by rewrite Hxml.
Qed.

(** ** The search client *)

(** X12: whatever the service answers, fetch_paper_ids writes one log line,
    the one that names the search term and the bound, and changes nothing
    else of the state, whether it returns or raises. *)
Theorem X12_search_logs_one_line env search_term max_results w :
  match fetch_paper_ids env search_term max_results w with
  | Returns _ w' | Raises _ w' =>
      w' = {| files := files w;
              stdout := stdout w;
              log := log w ++ [(INFO, "Fetching paper IDs for search term: "
                                      +:+ search_term +:+ " with max results: "
                                      +:+ pretty max_results)] |}
  | Blocked => False
  end.
Proof.
  unfold fetch_paper_ids, bind, lift, logging.
  destruct (requests_get env _ _) as [response|]; [|done].
  destruct (raise_for_status response); [|done].
  destruct (json_result response) as [data|]; [|done].
  destruct (py_get data _ _) as [inner|]; [|done].
  by destruct (py_get inner _ _).
Qed.

Lemma py_get_not_dict x key dflt :
  is_dict x = false -> exists msg, py_get x key dflt = Raise (Exc AttributeError msg).
Proof. destruct x; try done; intros _; by eexists. Qed.

(** X13: a response whose JSON body is not a dict, or whose esearchresult
    is there but is not a dict (null, say), makes fetch_paper_ids raise an
    AttributeError: only an absent key is taken for an empty result. *)
Theorem X13_search_shape_errors env search_term max_results w response data :
  requests_get env (BASE_URL +:+ "/esearch.fcgi")
    [ ("db", JStr "pubmed"); ("term", JStr search_term);
      ("retmax", JNum max_results); ("retmode", JStr "json") ] = Ok response ->
  raise_for_status response = Ok tt ->
  json_result response = Ok data ->
  (is_dict data = false ->
     exists msg,
       fetch_paper_ids env search_term max_results w =
         Raises (Exc AttributeError msg) (esearch_logged w search_term max_results)) /\
  (forall top v,
     data = JDict top -> assoc "esearchresult" top = Some v -> is_dict v = false ->
     exists msg,
       fetch_paper_ids env search_term max_results w =
         Raises (Exc AttributeError msg) (esearch_logged w search_term max_results)).
Proof.
  intros Hget Hstatus Hjson.
  rewrite (fetch_paper_ids_data _ _ _ w _ _ Hget Hstatus Hjson). split.
  - intros Hd. destruct (py_get_not_dict data "esearchresult" (JDict []) Hd) as [msg ->].
    by exists msg.
  - intros top v -> Hv Hd. cbn [py_get rbind]. rewrite Hv. simpl.
    destruct (py_get_not_dict v "idlist" (JList []) Hd) as [msg ->]. by exists msg.
Qed.

Lemma X13_search_shape_errors_witness :
  json_result (Sample.ok_json (JList [])) = Ok (JList []) /\
  fetch_paper_ids Fixture.answering_list "cancer" 10 Sample.empty_world =
    Raises (Exc AttributeError "'list' object has no attribute 'get'")
      (esearch_logged Sample.empty_world "cancer" 10).
Proof.
  split; [reflexivity|].
  destruct (X13_search_shape_errors Fixture.answering_list "cancer" 10 Sample.empty_world
              (Sample.ok_json (JList [])) (JList []) eq_refl eq_refl eq_refl)
    as [Hlist _].
  destruct (Hlist eq_refl) as [msg Hmsg]. rewrite Hmsg.
  vm_compute in Hmsg. injection Hmsg as <-. reflexivity.
Defined.

(** X14: fetch_paper_ids passes on an exception of the transport; for an
    answer with a status from 400 to 599 it raises an HTTPError and does not
    read the body; for another status and a body that is not JSON it raises
    the decoder's exception. *)
Theorem X14_search_failures env search_term max_results w :
  (forall e,
     requests_get env (BASE_URL +:+ "/esearch.fcgi")
       [ ("db", JStr "pubmed"); ("term", JStr search_term);
         ("retmax", JNum max_results); ("retmode", JStr "json") ] = Raise e ->
     fetch_paper_ids env search_term max_results w =
       Raises e (esearch_logged w search_term max_results)) /\
  (forall response,
     requests_get env (BASE_URL +:+ "/esearch.fcgi")
       [ ("db", JStr "pubmed"); ("term", JStr search_term);
         ("retmax", JNum max_results); ("retmode", JStr "json") ] = Ok response ->
     (400 <= status_code response < 600)%Z ->
     fetch_paper_ids env search_term max_results w =
       Raises (Exc HTTPError
                 (pretty (status_code response) +:+ " "
                  +:+ (if decide (status_code response < 500)%Z
                       then "Client" else "Server")
                  +:+ " Error: " +:+ reason response +:+ " for url: " +:+ url response))
         (esearch_logged w search_term max_results)) /\
  (forall response e,
     requests_get env (BASE_URL +:+ "/esearch.fcgi")
       [ ("db", JStr "pubmed"); ("term", JStr search_term);
         ("retmax", JNum max_results); ("retmode", JStr "json") ] = Ok response ->
     ~ (400 <= status_code response < 600)%Z ->
     json_result response = Raise e ->
     fetch_paper_ids env search_term max_results w =
       Raises e (esearch_logged w search_term max_results)).
Proof.
  unfold fetch_paper_ids, bind, lift, logging, esearch_logged, logged.
  split; [|split].
  - by intros e ->.
  - intros response -> Hstatus. cbv beta iota.
    by rewrite (raise_for_status_error response Hstatus).
  - intros response e -> Hok Hjson. cbv beta iota.
    rewrite (raise_for_status_ok response Hok). cbv beta iota. by rewrite Hjson.
Qed.

Lemma X14_search_failures_witness :
  fetch_paper_ids Sample.unavailable "cancer" 10 Sample.empty_world =
    Raises (Exc HTTPError
              ("503 Server Error: Service Unavailable for url: "
               +:+ BASE_URL +:+ "/esearch.fcgi"))
      (esearch_logged Sample.empty_world "cancer" 10).
Proof.
  destruct (X14_search_failures Sample.unavailable "cancer" 10 Sample.empty_world)
    as (_ & Hstatus & _).
  apply (Hstatus {| status_code := 503; reason := "Service Unavailable";
                    url := BASE_URL +:+ "/esearch.fcgi";
                    json_result := Raise (Exc JSONDecodeError
                                            "Expecting value: line 1 column 1 (char 0)");
                    xml_result := Raise (Exc ParseError
                                           "syntax error: line 1, column 0") |});
    [reflexivity | simpl; lia].
Defined.

(** ** The writer *)



Lemma csv_rows_length data : length (csv_rows data) = length data.
Proof. unfold csv_rows, make_frame. cbn [rows]. by rewrite !length_map. Qed.













(** ** Failures in the pool *)

(** X18: when the fetch of one identifier raises, the coordinator raises
    too, after its log line, whatever the order in which the workers finish,
    and no list of the records that were fetched is returned.  The
    exception is the one the parent rebuilds from the pickle of an exception
    that the fetch of some identifier of the batch raised in a worker. *)
Theorem X18_one_failure_fails_the_batch sch ids fetch w id0 e0 :
  id0 ∈ ids ->
  fetch id0 = Raise e0 ->
  exists e id,
    fetch_details_concurrently sch (JList ids) fetch w =
      Raises (rebuilt sch e) (pool_logged w (length ids)) /\
    id ∈ ids /\ fetch id = Raise e.
Proof.
  intros Hin Hfail.
  destruct (fetch_details_concurrently_list sch ids fetch w)
    as ([ys|e] & _ & -> & Hspec).
  - apply list_elem_of_lookup in Hin as [i Hi].
    destruct (Forall2_lookup_l _ _ _ _ _ Hspec Hi) as (y' & _ & Hy').
    congruence.
  - destruct Hspec as (e1 & x & -> & Hx & He). by exists e1, x.
Qed.

Lemma X18_one_failure_fails_the_batch_witness :
  JStr "2" ∈ [JStr "1"; JStr "2"; JStr "3"] /\
  Fixture.failing_fetch (JStr "2") = Raise (Exc ParseError "second") /\
  exists e,
    fetch_details_concurrently Fixture.retelling
      (JList [JStr "1"; JStr "2"; JStr "3"]) Fixture.failing_fetch Sample.empty_world =
      Raises (rebuilt Fixture.retelling e) (pool_logged Sample.empty_world 3).
Proof.
  assert (JStr "2" ∈ [JStr "1"; JStr "2"; JStr "3"]) as Hin by (right; left).
  split; [exact Hin|]. split; [reflexivity|].
  destruct (X18_one_failure_fails_the_batch Fixture.retelling
              [JStr "1"; JStr "2"; JStr "3"] Fixture.failing_fetch Sample.empty_world
              (JStr "2") (Exc ParseError "second") Hin eq_refl)
    as (e & _ & Hrun & _).
  exists e. exact Hrun.
Defined.

Lemma collect_app {A B} rebuild c (func : A -> result B) xs s1 s2 m :
  Pool.collect rebuild c func xs (s1 ++ s2) m =
  Pool.collect rebuild c func xs s2 (Pool.collect rebuild c func xs s1 m).
Proof. unfold Pool.collect. apply fold_left_app. Qed.

Lemma collect_keeps_success {A B} rebuild c (func : A -> result B) xs sched m :
  Pool.mr_success m = true ->
  (forall j, j ∈ sched -> exists ys, Pool.mapstar func (Pool.chunk c j xs) = Ok ys) ->
  Pool.mr_success (Pool.collect rebuild c func xs sched m) = true.
Proof.
  revert m. induction sched as [|j sched IH]; intros m Hm Hok; [done|].
  change (Pool.collect rebuild c func xs (j :: sched) m)
    with (Pool.collect rebuild c func xs sched
            (Pool.set_result rebuild c j (Pool.mapstar func (Pool.chunk c j xs)) m)).
  apply IH.
  - destruct (Hok j) as [ys ->]; [left|]. unfold Pool.set_result. by rewrite Hm.
  - intros j' Hj'. apply Hok. by right.
Qed.

Lemma collect_keeps_error {A B} rebuild c (func : A -> result B) xs sched m :
  Pool.mr_success m = false ->
  Pool.mr_success (Pool.collect rebuild c func xs sched m) = false /\
  Pool.mr_error (Pool.collect rebuild c func xs sched m) = Pool.mr_error m.
Proof.
  revert m. induction sched as [|j sched IH]; intros m Hm; [done|].
  change (Pool.collect rebuild c func xs (j :: sched) m)
    with (Pool.collect rebuild c func xs sched
            (Pool.set_result rebuild c j (Pool.mapstar func (Pool.chunk c j xs)) m)).
  destruct (IH (Pool.set_result rebuild c j (Pool.mapstar func (Pool.chunk c j xs)) m))
    as [H1 H2].
  - unfold Pool.set_result. rewrite Hm. by destruct (Pool.mapstar _ _).
  - split; [done|]. rewrite H2. unfold Pool.set_result. rewrite Hm.
    by destruct (Pool.mapstar _ _).
Qed.

(** The exception of a [map] call is that of the first task to come back
    with one. *)
Lemma pool_map_first_failure {A B} p rebuild (func : A -> result B) xs pre i post e :
  pre ++ i :: post ≡ₚ
    seq 0 (Pool.number_of_tasks (Pool.chunksize p (length xs)) (length xs)) ->
  (forall j, j ∈ pre ->
     exists ys, Pool.mapstar func (Pool.chunk (Pool.chunksize p (length xs)) j xs) = Ok ys) ->
  Pool.mapstar func (Pool.chunk (Pool.chunksize p (length xs)) i xs) = Raise e ->
  Pool.map p rebuild (pre ++ i :: post) func xs = Some (Raise (rebuild e)).
Proof.
  intros Hperm Hpre Hfail. unfold Pool.map.
  destruct (Nat.eqb (Pool.chunksize p (length xs)) 0) eqn:Ec.
  { apply Nat.eqb_eq in Ec. rewrite Ec in Hfail. unfold Pool.chunk in Hfail.
    by rewrite take_0 in Hfail. }
  apply Nat.eqb_neq in Ec.
  assert (0 < Pool.chunksize p (length xs)) as Hc by lia.
  destruct (collect_all rebuild func xs _ Hc _ Hperm) as (D & _ & -> & _).
  cbn [Nat.eqb]. rewrite collect_app.
  set (m1 := Pool.collect rebuild _ func xs pre _).
  assert (Pool.mr_success m1 = true) as Hm1
    by (by apply collect_keeps_success).
  change (Pool.collect rebuild (Pool.chunksize p (length xs)) func xs (i :: post) m1)
    with (Pool.collect rebuild (Pool.chunksize p (length xs)) func xs post
            (Pool.set_result rebuild (Pool.chunksize p (length xs)) i
               (Pool.mapstar func (Pool.chunk (Pool.chunksize p (length xs)) i xs)) m1)).
  rewrite Hfail.
  destruct (collect_keeps_error rebuild (Pool.chunksize p (length xs)) func xs post
              (Pool.set_result rebuild (Pool.chunksize p (length xs)) i (Raise e) m1))
    as [-> ->]; unfold Pool.set_result; by rewrite Hm1.
Qed.

(** X19: among several failing identifiers, the exception the coordinator
    raises is that of the first task to come back with one, in the order in
    which the workers finish, as the parent rebuilds it from its pickle:
    which error is reported depends on the timing of the workers, not on
    the order of the identifiers. *)
Theorem X19_first_failure_back_is_reported sch ids fetch w pre i post e :
  completion_order sch
    (Pool.number_of_tasks (Pool.chunksize 2 (length ids)) (length ids)) =
    pre ++ i :: post ->
  (forall j, j ∈ pre ->
     exists ys, Pool.mapstar fetch (Pool.chunk (Pool.chunksize 2 (length ids)) j ids) = Ok ys) ->
  Pool.mapstar fetch (Pool.chunk (Pool.chunksize 2 (length ids)) i ids) = Raise e ->
  fetch_details_concurrently sch (JList ids) fetch w =
    Raises (rebuilt sch e) (pool_logged w (length ids)).
Proof.
  intros Hsched Hpre Hfail.
  unfold fetch_details_concurrently, bind. cbn [py_len lift logging py_items].
  rewrite Hsched, (pool_map_first_failure 2 (rebuilt sch) fetch ids pre i post e); [done| |done|done].
  rewrite <- Hsched. apply completion_order_perm.
Qed.

Lemma X19_first_failure_back_is_reported_witness :
  completion_order Fixture.retelling 2 = [] ++ 1 :: [0] /\
  Fixture.failing_fetch (JStr "1") = Raise (Exc HTTPError "first") /\
  Fixture.failing_fetch (JStr "2") = Raise (Exc ParseError "second") /\
  fetch_details_concurrently Fixture.retelling (JList [JStr "1"; JStr "2"])
    Fixture.failing_fetch Sample.empty_world =
    Raises (Exc ParseError "(rebuilt) second") (pool_logged Sample.empty_world 2).
Proof.
  split; [reflexivity|]. split; [reflexivity|]. split; [reflexivity|].
  apply (X19_first_failure_back_is_reported Fixture.retelling [JStr "1"; JStr "2"]
           Fixture.failing_fetch Sample.empty_world [] 1 [0] (Exc ParseError "second")).
  - reflexivity.
  - intros j Hj. by apply not_elem_of_nil in Hj.
  - reflexivity.
Defined.

(** ** Whole runs *)









(** ** Further statements at sample inputs *)

Lemma X1_company_two_keywords_decide_witness :
  PyStr.substring_of "Biotech" "Acme Biotechnology AG" /\
  is_company (Some "Acme Biotechnology AG") = Ok true.
Proof.
  assert (PyStr.substring_of "Biotech" "Acme Biotechnology AG") as Hs
    by (apply contains_spec; reflexivity).
  split; [exact Hs|].
  apply (proj2 (X1_company_two_keywords_decide "Acme Biotechnology AG")). by right.
Defined.

Lemma X7_parser_fails_only_on_empty_affiliation_witness :
  (exists a aff,
     a ∈ ET.findall_desc "Author" (Sample.article [Sample.jane; Sample.nora]) /\
     ET.find_desc "Affiliation" a = Some aff /\ text aff = None) /\
  exists e,
    parse_paper_details Sample.order (Sample.article [Sample.jane; Sample.nora]) = Raise e.
Proof.
  assert (exists a aff,
     a ∈ ET.findall_desc "Author" (Sample.article [Sample.jane; Sample.nora]) /\
     ET.find_desc "Affiliation" a = Some aff /\ text aff = None) as Hsome.
  { exists Sample.nora, (Elem "Affiliation" None []). split; [|split; reflexivity].
    apply list_elem_of_In. simpl. right. left. reflexivity. }
  split; [exact Hsome|].
  destruct (X7_parser_fails_only_on_empty_affiliation Sample.order
              (Sample.article [Sample.jane; Sample.nora])) as (_ & Hraise & _).
  apply Hraise. exact Hsome.
Defined.

Lemma X11_fetch_details_steps_witness :
  requests_get (Fixture.serving [JStr "7"]) (BASE_URL +:+ "/efetch.fcgi")
    [ ("db", JStr "pubmed"); ("id", JStr "7"); ("retmode", JStr "xml") ] =
    Ok (Fixture.xml_response 200 "OK" (Sample.article [Sample.jane])) /\
  exists rec,
    parse_paper_details Sample.order (Sample.article [Sample.jane]) = Ok rec /\
    fetch_paper_details (Fixture.serving [JStr "7"]) (JStr "7") = Ok rec.
Proof.
  split; [reflexivity|]. eexists. split; [reflexivity|].
  destruct (X11_fetch_details_steps (Fixture.serving [JStr "7"]) (JStr "7"))
    as (Hok & _ & _).
  apply Hok.
  exists (Fixture.xml_response 200 "OK" (Sample.article [Sample.jane])),
         (Sample.article [Sample.jane]).
  split; [reflexivity|]. split; [simpl; lia|]. split; reflexivity.
Defined.

